(** * AIS collector for the Baltic Sea region: a model of [collect_ais.py]

    The script is one linear pipeline: fetch the position reports, keep the
    ones inside a fixed rectangle, fetch the vessel metadata, append one row
    per vessel and one summary row to the SQLite store, overwrite the JSON
    snapshot.  The model below follows the script function by function.

    - Values decoded from the two HTTP replies are Python objects built by
      [response.json()]; they are represented by [json].
    - A Python exception is a [Raise]; code that may raise lives in [res].
    - The store, the snapshot file and the printed lines form the [world]
      that [main] transforms. *)

From Stdlib Require Import ZArith QArith Qpower List String Ascii Bool Lia.
Import ListNotations.
Open Scope string_scope.
Open Scope Z_scope.
#[local] Set Warnings "-register-all".

(** ** Python values *)

(** A Python float: not-a-number, an infinity, or the finite value
    [m * 2^e].  Every finite binary64 number has this form; comparisons are
    by exact value, as Python compares floats with each other and with
    integers.  The two zeros compare equal and are not told apart. *)
Inductive pyfloat : Type :=
| FNan
| FInf (negative : bool)
| FFin (m e : Z).

(** What [json.loads] can build.  A JSON object is a [dict] with string
    keys, kept as an association list in insertion order; a key occurs
    once, and a lookup takes the first binding of its key. *)
Inductive json : Type :=
| JNull
| JBool (b : bool)
| JInt (z : Z)
| JFloat (f : pyfloat)
| JStr (s : string)
| JList (l : list json)
| JDict (d : list (string * json)).

Inductive exn : Type :=
| KeyError
| IndexError
| TypeError
| AttributeError
| OverflowError
| BindingError      (* sqlite3: a parameter of an unsupported type *)
| IntegrityError    (* sqlite3: NOT NULL constraint failed *)
| OperationalError. (* sqlite3: no such table *)

Inductive res (A : Type) : Type :=
| Ok (a : A)
| Raise (e : exn).
Arguments Ok {A} a.
Arguments Raise {A} e.

Definition bind {A B : Type} (r : res A) (k : A -> res B) : res B :=
  match r with
  | Ok a => k a
  | Raise e => Raise e
  end.

Declare Scope res_scope.
Delimit Scope res_scope with res.
Notation "x <- r ;; k" := (bind r (fun x => k))
  (at level 100, r at next level, right associativity) : res_scope.
Open Scope res_scope.

Fixpoint mapM {A B : Type} (f : A -> res B) (l : list A) : res (list B) :=
  match l with
  | [] => Ok []
  | a :: l' => b <- f a ;; bs <- mapM f l' ;; Ok (b :: bs)
  end.

(** *** Numbers *)

(** Exact comparison of [m1 * 2^e1] with [m2 * 2^e2]: both are scaled to
    the smaller exponent. *)
Definition dyadic_compare (m1 e1 m2 e2 : Z) : comparison :=
  let e := Z.min e1 e2 in
  (m1 * 2 ^ (e1 - e)) ?= (m2 * 2 ^ (e2 - e)).

(** [None] is the unordered case: a NaN on either side. *)
Definition float_compare (x y : pyfloat) : option comparison :=
  match x, y with
  | FNan, _ | _, FNan => None
  | FInf true, FInf true => Some Eq
  | FInf true, _ => Some Lt
  | _, FInf true => Some Gt
  | FInf false, FInf false => Some Eq
  | FInf false, _ => Some Gt
  | _, FInf false => Some Lt
  | FFin m1 e1, FFin m2 e2 => Some (dyadic_compare m1 e1 m2 e2)
  end.

Definition float_leb (x y : pyfloat) : bool :=
  match float_compare x y with
  | Some Lt | Some Eq => true
  | _ => false
  end.

Definition float_ltb (x y : pyfloat) : bool :=
  match float_compare x y with
  | Some Lt => true
  | _ => false
  end.

Definition float_eqb (x y : pyfloat) : bool :=
  match float_compare x y with
  | Some Eq => true
  | _ => false
  end.

(** The numeric reading of a value: [bool] is a subclass of [int], and an
    integer compares with a float by exact value. *)
Definition as_number (v : json) : option pyfloat :=
  match v with
  | JBool b => Some (FFin (Z.b2z b) 0)
  | JInt z => Some (FFin z 0)
  | JFloat f => Some f
  | _ => None
  end.

(** [c <= v] and [v <= c] for a float [c]: a [TypeError] unless [v] is a
    number. *)
Definition float_le_value (c : pyfloat) (v : json) : res bool :=
  match as_number v with
  | Some x => Ok (float_leb c x)
  | None => Raise TypeError
  end.

Definition value_le_float (v : json) (c : pyfloat) : res bool :=
  match as_number v with
  | Some x => Ok (float_leb x c)
  | None => Raise TypeError
  end.

(** *** Dictionaries, subscripts, truth values *)

Fixpoint dict_lookup {A : Type} (k : string) (d : list (string * A)) : option A :=
  match d with
  | [] => None
  | (k', v) :: d' => if String.eqb k k' then Some v else dict_lookup k d'
  end.

(** Python [==] on decoded values: numbers by value across [bool], [int]
    and [float]; strings, lists and dicts structurally; anything else
    unequal.  A NaN equals nothing. *)
Fixpoint py_eq (a b : json) {struct a} : bool :=
  match a, b with
  | JNull, JNull => true
  | JStr s, JStr t => String.eqb s t
  | JList l, JList l' =>
      (fix all2 (l l' : list json) : bool :=
         match l, l' with
         | [], [] => true
         | x :: r, y :: r' => py_eq x y && all2 r r'
         | _, _ => false
         end) l l'
  | JDict d, JDict d' =>
      Nat.eqb (List.length d) (List.length d') &&
      (fix each (d : list (string * json)) : bool :=
         match d with
         | [] => true
         | (k, v) :: r =>
             match dict_lookup k d' with
             | Some v' => py_eq v v'
             | None => false
             end && each r
         end) d
  | _, _ =>
      match as_number a, as_number b with
      | Some x, Some y => float_eqb x y
      | _, _ => false
      end
  end.

(** [a is b or a == b], the test that [in] and dictionary lookups make.
    Among decoded values the identity adds one case to [==]: [json] decodes
    every NaN to one and the same float object, so a NaN, equal to nothing,
    is still found where a NaN is stored.  Lists and dicts compare their
    items the same way. *)
Definition float_same (x y : pyfloat) : bool :=
  match x, y with
  | FNan, FNan => true
  | _, _ => float_eqb x y
  end.

Fixpoint py_same (a b : json) {struct a} : bool :=
  match a, b with
  | JNull, JNull => true
  | JStr s, JStr t => String.eqb s t
  | JList l, JList l' =>
      (fix all2 (l l' : list json) : bool :=
         match l, l' with
         | [], [] => true
         | x :: r, y :: r' => py_same x y && all2 r r'
         | _, _ => false
         end) l l'
  | JDict d, JDict d' =>
      Nat.eqb (List.length d) (List.length d') &&
      (fix each (d : list (string * json)) : bool :=
         match d with
         | [] => true
         | (k, v) :: r =>
             match dict_lookup k d' with
             | Some v' => py_same v v'
             | None => false
             end && each r
         end) d
  | _, _ =>
      match as_number a, as_number b with
      | Some x, Some y => float_same x y
      | _, _ => false
      end
  end.

(** [bool(v)] *)
Definition truthy (v : json) : bool :=
  match v with
  | JNull => false
  | JBool b => b
  | JInt z => negb (z =? 0)
  | JFloat f => negb (float_eqb f (FFin 0 0))
  | JStr s => negb (String.eqb s "")
  | JList l => match l with [] => false | _ => true end
  | JDict d => match d with [] => false | _ => true end
  end.

(** [k in v] for a string [k]: key test on a dict, element test on a list,
    substring test on a string, [TypeError] on anything else. *)
Definition contains_str (k : string) (v : json) : res bool :=
  match v with
  | JDict d => Ok (match dict_lookup k d with Some _ => true | None => false end)
  | JList l => Ok (existsb (fun x => py_eq (JStr k) x) l)
  | JStr s => Ok (match String.index 0 k s with Some _ => true | None => false end)
  | _ => Raise TypeError
  end.

(** [v[k]] for a string [k] *)
Definition getitem (v : json) (k : string) : res json :=
  match v with
  | JDict d => match dict_lookup k d with Some x => Ok x | None => Raise KeyError end
  | _ => Raise TypeError
  end.

(** [v[i]] for a natural number [i] *)
Definition getindex (v : json) (i : nat) : res json :=
  match v with
  | JList l => match nth_error l i with Some x => Ok x | None => Raise IndexError end
  | JStr s =>
      match String.get i s with
      | Some c => Ok (JStr (String c EmptyString))
      | None => Raise IndexError
      end
  | JDict _ => Raise KeyError
  | _ => Raise TypeError
  end.

(** [v.get(k)] and [v.get(k, default)]: only a dict has the method. *)
Definition dict_get (v : json) (k : string) (default : json) : res json :=
  match v with
  | JDict d => Ok (match dict_lookup k d with Some x => x | None => default end)
  | _ => Raise AttributeError
  end.

(** The items a [for] loop over [v] visits. *)
Definition py_iter (v : json) : res (list json) :=
  match v with
  | JList l => Ok l
  | JDict d => Ok (map (fun kv => JStr (fst kv)) d)
  | JStr s => Ok (map (fun c => JStr (String c EmptyString)) (list_ascii_of_string s))
  | _ => Raise TypeError
  end.

(** ** Configuration *)

Record bbox : Type := {
  min_lon : pyfloat;
  max_lon : pyfloat;
  min_lat : pyfloat;
  max_lat : pyfloat
}.

(** 17.0, 30.3, 58.5 and 66.0 as binary64 values; 30.3 is the nearest
    double, 8528691794332877 / 2^48. *)
Definition BBOX : bbox := {|
  min_lon := FFin 17 0;
  max_lon := FFin 8528691794332877 (-48);
  min_lat := FFin 117 (-1);
  max_lat := FFin 66 0
|}.

(** ** Geographic filter *)

(** [BBOX['min_lon'] <= lon <= BBOX['max_lon'] and
     BBOX['min_lat'] <= lat <= BBOX['max_lat']], with the left-to-right
    short circuit of chained comparisons and of [and]. *)
Definition in_bbox (lon lat : json) : res bool :=
  a <- float_le_value (min_lon BBOX) lon ;;
  if negb a then Ok false else
  b <- value_le_float lon (max_lon BBOX) ;;
  if negb b then Ok false else
  c <- float_le_value (min_lat BBOX) lat ;;
  if negb c then Ok false else
  value_le_float lat (max_lat BBOX).

Fixpoint filter_loop (features filtered : list json) : res (list json) :=
  match features with
  | [] => Ok filtered
  | feature :: rest =>
      geometry <- getitem feature "geometry" ;;
      coords <- getitem geometry "coordinates" ;;
      lon <- getindex coords 0 ;;
      lat <- getindex coords 1 ;;
      inside <- in_bbox lon lat ;;
      filter_loop rest (if inside then (filtered ++ [feature])%list else filtered)
  end.

Definition filter_vessels (data : json) : res (list json) :=
  if negb (truthy data) then Ok [] else
  has <- contains_str "features" data ;;
  if negb has then Ok [] else
  features <- getitem data "features" ;;
  items <- py_iter features ;;
  filter_loop items [].

(** ** Vessel metadata *)

(** [str.isspace] on the characters a [string] holds (code points below
    256). *)
Definition is_space (c : ascii) : bool :=
  let n := nat_of_ascii c in
  ((9 <=? n) && (n <=? 13) || (28 <=? n) && (n <=? 32) ||
   (n =? 133) || (n =? 160))%nat.

Fixpoint lstrip (s : string) : string :=
  match s with
  | EmptyString => EmptyString
  | String c s' => if is_space c then lstrip s' else s
  end.

Fixpoint rstrip (s : string) : string :=
  match s with
  | EmptyString => EmptyString
  | String c s' =>
      let t := rstrip s' in
      if is_space c && String.eqb t "" then EmptyString else String c t
  end.

(** [v.strip()]: only a string has the method. *)
Definition str_strip (v : json) : res json :=
  match v with
  | JStr s => Ok (JStr (rstrip (lstrip s)))
  | _ => Raise AttributeError
  end.

(** The lookup [fetch_vessel_metadata] builds: a [dict] keyed by vessel
    identifier.  A key is found by [py_same], as a dictionary finds it (the
    hashes of equal numbers agree); keys that are the same are one key, and
    entries are kept in insertion order. *)
Definition metadata_dict : Type := list (json * json).

Definition hashable (k : json) : bool :=
  match k with
  | JList _ | JDict _ => false
  | _ => true
  end.

Fixpoint metadata_find (k : json) (m : metadata_dict) : option json :=
  match m with
  | [] => None
  | (k', v) :: m' => if py_same k' k then Some v else metadata_find k m'
  end.

Fixpoint metadata_update (k v : json) (m : metadata_dict) : metadata_dict :=
  match m with
  | [] => [(k, v)]
  | (k', v') :: m' =>
      if py_same k' k then (k', v) :: m' else (k', v') :: metadata_update k v m'
  end.

(** [m[k] = v] *)
Definition metadata_set (m : metadata_dict) (k v : json) : res metadata_dict :=
  if hashable k then Ok (metadata_update k v m) else Raise TypeError.

(** [m.get(k, {})] *)
Definition metadata_get (m : metadata_dict) (k : json) : res json :=
  if hashable k then
    Ok (match metadata_find k m with Some v => v | None => JDict [] end)
  else Raise TypeError.

(** [x in l]: some element is [x] or equals it. *)
Definition list_contains (l : list json) (x : json) : bool :=
  existsb (fun e => py_same e x) l.

(** The dict literal stored for one vessel. *)
Definition metadata_entry (vessel : json) : res json :=
  name <- dict_get vessel "name" (JStr "") ;;
  name <- str_strip name ;;
  ship_type <- dict_get vessel "shipType" JNull ;;
  destination <- dict_get vessel "destination" (JStr "") ;;
  destination <- str_strip destination ;;
  eta <- dict_get vessel "eta" JNull ;;
  draught <- dict_get vessel "draught" JNull ;;
  Ok (JDict [("name", name); ("ship_type", ship_type);
             ("destination", destination); ("eta", eta);
             ("draught", draught)]).

Fixpoint metadata_loop (vessels mmsi_list : list json) (metadata : metadata_dict)
  : res metadata_dict :=
  match vessels with
  | [] => Ok metadata
  | vessel :: rest =>
      mmsi <- dict_get vessel "mmsi" JNull ;;
      if list_contains mmsi_list mmsi then
        entry <- metadata_entry vessel ;;
        metadata <- metadata_set metadata mmsi entry ;;
        metadata_loop rest mmsi_list metadata
      else metadata_loop rest mmsi_list metadata
  end.

(** ** The world the script runs in *)

(** What [requests.get], [raise_for_status] and [response.json()] come to:
    the request fails, the status is not a success, the body is not JSON,
    or the body decodes to a value. *)
Inductive http_reply : Type :=
| NetworkError
| StatusError (code : nat)
| MalformedBody
| Body (payload : json).

Record datetime : Type := {
  year : nat; month : nat; day : nat;
  hour : nat; minute : nat; second : nat; microsecond : nat
}.

Fixpoint digits (width n : nat) : string :=
  match width with
  | O => ""
  | S w => digits w (n / 10) ++ String (ascii_of_nat (48 + n mod 10)) ""
  end.

(** [isoformat()] of a datetime in UTC; the fraction is left out when the
    microseconds are zero. *)
Definition isoformat (t : datetime) : string :=
  digits 4 (year t) ++ "-" ++ digits 2 (month t) ++ "-" ++ digits 2 (day t) ++
  "T" ++ digits 2 (hour t) ++ ":" ++ digits 2 (minute t) ++ ":" ++
  digits 2 (second t) ++
  (if Nat.eqb (microsecond t) 0 then "" else "." ++ digits 6 (microsecond t)) ++
  "+00:00".

(** A value as SQLite stores a bound parameter. *)
Inductive sqlval : Type :=
| SqlNull
| SqlInteger (z : Z)
| SqlReal (f : pyfloat)
| SqlText (s : string).

(** How [sqlite3] binds a Python value: [None] is NULL, a [bool] an
    integer, an [int] must fit 64 bits, a NaN is stored as NULL, and a list
    or dict cannot be bound. *)
Definition sqlite_bind (v : json) : res sqlval :=
  match v with
  | JNull => Ok SqlNull
  | JBool b => Ok (SqlInteger (Z.b2z b))
  | JInt z =>
      if (- 2 ^ 63 <=? z) && (z <? 2 ^ 63) then Ok (SqlInteger z)
      else Raise OverflowError
  | JFloat FNan => Ok SqlNull
  | JFloat f => Ok (SqlReal f)
  | JStr s => Ok (SqlText s)
  | JList _ | JDict _ => Raise BindingError
  end.

(** One row of [vessel_positions], without the columns SQLite fills in
    ([id], [created_at]).  A column holds the value as it was bound to the
    INSERT; the conversion SQLite then makes to the affinity of the column
    (an integer to a REAL, a numeric text to an INTEGER, a number to a TEXT)
    is not carried out here.  It turns no NULL into a value and no value
    into NULL. *)
Record position_row : Type := {
  row_timestamp : string;
  row_mmsi : sqlval;
  row_name : sqlval;
  row_longitude : sqlval;
  row_latitude : sqlval;
  row_sog : sqlval;
  row_cog : sqlval;
  row_heading : sqlval;
  row_nav_stat : sqlval;
  row_ship_type : sqlval;
  row_destination : sqlval;
  row_eta : sqlval;
  row_draught : sqlval;
  row_pos_acc : sqlval
}.

(** One row of [collection_summary], without [id]. *)
Record summary_row : Type := {
  summary_timestamp : string;
  summary_vessel_count : nat;
  summary_collection_time_ms : Z
}.

(** The two tables; [None] is a table that does not exist yet. *)
Record database : Type := {
  vessel_positions : option (list position_row);
  collection_summary : option (list summary_row)
}.

(** The file [data/ais/latest.json]: missing, opened for writing and not
    yet complete (empty or cut short), or holding a whole document. *)
Inductive file : Type :=
| Absent
| Truncated
| Document (doc : json).

Inductive printed : Type :=
| PrintRule
| PrintStarted
| PrintCollectionTime (timestamp : string)
| PrintDatabaseInitialized
| PrintFetching
| PrintFetchError
| PrintFailed
| PrintFiltering
| PrintFound (n : nat)
| PrintFetchingMetadata
| PrintMetadataWarning
| PrintRetrieved (n : nat)
| PrintSaved (n : nat)
| PrintExported (n : nat)
| PrintComplete (ms : Z).

Record world : Type := {
  db : database;
  latest_json : file;
  stdout : list printed
}.

(** A step of the script: it may change the world and it returns or
    raises. *)
Definition M (A : Type) : Type := world -> res A * world.

Definition ret {A : Type} (a : A) : M A := fun w => (Ok a, w).

Definition mbind {A B : Type} (c : M A) (k : A -> M B) : M B :=
  fun w =>
    match c w with
    | (Ok a, w') => k a w'
    | (Raise e, w') => (Raise e, w')
    end.

Definition lift {A : Type} (r : res A) : M A := fun w => (r, w).

Definition print (l : printed) : M unit :=
  fun w => (Ok tt, {| db := db w; latest_json := latest_json w;
                      stdout := (stdout w ++ [l])%list |}).

Notation "x <-- c ;; k" := (mbind c (fun x => k))
  (at level 100, c at next level, right associativity).
Notation "c ;;; k" := (mbind c (fun _ => k))
  (at level 100, right associativity).

(** ** Store set-up and the two fetches *)

(** [CREATE TABLE IF NOT EXISTS]: a missing table is created empty, an
    existing one keeps its rows.  The indexes hold no data of their own. *)
Definition create_if_missing {A : Type} (t : option (list A)) : option (list A) :=
  match t with
  | None => Some []
  | Some rows => Some rows
  end.

Definition init_database : M unit :=
  fun w =>
    let d := {| vessel_positions := create_if_missing (vessel_positions (db w));
                collection_summary := create_if_missing (collection_summary (db w)) |} in
    print PrintDatabaseInitialized
      {| db := d; latest_json := latest_json w; stdout := stdout w |}.

(** The body of the [try]: every failure is an exception the [except]
    clause catches. *)
Definition fetch_ais_data (reply : http_reply) : M json :=
  match reply with
  | Body data => ret data
  | _ => print PrintFetchError ;;; ret JNull
  end.

Definition fetch_vessel_metadata (mmsi_list : list json) (reply : http_reply)
  : M metadata_dict :=
  match reply with
  | Body vessels =>
      match (items <- py_iter vessels ;; metadata_loop items mmsi_list []) with
      | Ok metadata => ret metadata
      | Raise _ => print PrintMetadataWarning ;;; ret []
      end
  | _ => print PrintMetadataWarning ;;; ret []
  end.

(** ** Persistence *)

(** The values passed to the INSERT for one feature: the parameter tuple,
    its elements evaluated left to right. *)
Record insert_params : Type := {
  p_timestamp : string;
  p_mmsi : json;
  p_name : json;
  p_longitude : json;
  p_latitude : json;
  p_sog : json;
  p_cog : json;
  p_heading : json;
  p_nav_stat : json;
  p_ship_type : json;
  p_destination : json;
  p_eta : json;
  p_draught : json;
  p_pos_acc : json
}.

Definition position_params (vessel_metadata : metadata_dict) (timestamp_str : string)
  (feature : json) : res insert_params :=
  props <- getitem feature "properties" ;;
  geometry <- getitem feature "geometry" ;;
  coords <- getitem geometry "coordinates" ;;
  mmsi <- dict_get props "mmsi" JNull ;;
  meta <- metadata_get vessel_metadata mmsi ;;
  name <- dict_get meta "name" JNull ;;
  lon <- getindex coords 0 ;;
  lat <- getindex coords 1 ;;
  sog <- dict_get props "sog" JNull ;;
  cog <- dict_get props "cog" JNull ;;
  heading <- dict_get props "heading" JNull ;;
  nav_stat <- dict_get props "navStat" JNull ;;
  ship_type <- dict_get meta "ship_type" JNull ;;
  destination <- dict_get meta "destination" JNull ;;
  eta <- dict_get meta "eta" JNull ;;
  draught <- dict_get meta "draught" JNull ;;
  pos_acc <- dict_get props "posAcc" JNull ;;
  Ok {| p_timestamp := timestamp_str; p_mmsi := mmsi; p_name := name;
        p_longitude := lon; p_latitude := lat; p_sog := sog; p_cog := cog;
        p_heading := heading; p_nav_stat := nav_stat;
        p_ship_type := ship_type; p_destination := destination;
        p_eta := eta; p_draught := draught; p_pos_acc := pos_acc |}.

(** The parameters are bound in order; the first that cannot be bound
    raises. *)
Definition bind_params (p : insert_params) : res position_row :=
  mmsi <- sqlite_bind (p_mmsi p) ;;
  name <- sqlite_bind (p_name p) ;;
  lon <- sqlite_bind (p_longitude p) ;;
  lat <- sqlite_bind (p_latitude p) ;;
  sog <- sqlite_bind (p_sog p) ;;
  cog <- sqlite_bind (p_cog p) ;;
  heading <- sqlite_bind (p_heading p) ;;
  nav_stat <- sqlite_bind (p_nav_stat p) ;;
  ship_type <- sqlite_bind (p_ship_type p) ;;
  destination <- sqlite_bind (p_destination p) ;;
  eta <- sqlite_bind (p_eta p) ;;
  draught <- sqlite_bind (p_draught p) ;;
  pos_acc <- sqlite_bind (p_pos_acc p) ;;
  Ok {| row_timestamp := p_timestamp p; row_mmsi := mmsi; row_name := name;
        row_longitude := lon; row_latitude := lat; row_sog := sog;
        row_cog := cog; row_heading := heading; row_nav_stat := nav_stat;
        row_ship_type := ship_type; row_destination := destination;
        row_eta := eta; row_draught := draught; row_pos_acc := pos_acc |}.

Definition is_null (v : sqlval) : bool :=
  match v with
  | SqlNull => true
  | _ => false
  end.

(** [cursor.execute] of the INSERT INTO vessel_positions: the statement is
    prepared (the table must exist), the parameters are bound, and the row
    is stored if its NOT NULL columns are given. *)
Definition insert_position (d : database) (p : insert_params) : res database :=
  match vessel_positions d with
  | None => Raise OperationalError
  | Some rows =>
      r <- bind_params p ;;
      if is_null (row_mmsi r) || is_null (row_longitude r) || is_null (row_latitude r)
      then Raise IntegrityError
      else Ok {| vessel_positions := Some (rows ++ [r])%list;
                 collection_summary := collection_summary d |}
  end.

Definition insert_summary (d : database) (r : summary_row) : res database :=
  match collection_summary d with
  | None => Raise OperationalError
  | Some rows =>
      Ok {| vessel_positions := vessel_positions d;
            collection_summary := Some (rows ++ [r])%list |}
  end.

Fixpoint insert_loop (vessels : list json) (vessel_metadata : metadata_dict)
  (timestamp_str : string) (d : database) : res database :=
  match vessels with
  | [] => Ok d
  | feature :: rest =>
      p <- position_params vessel_metadata timestamp_str feature ;;
      d <- insert_position d p ;;
      insert_loop rest vessel_metadata timestamp_str d
  end.

(** The inserts run in the transaction [sqlite3] opens at the first of
    them; they reach the store at [conn.commit()].  When an insert raises,
    nothing was committed and the store is as before. *)
Definition save_to_database (vessels : list json) (vessel_metadata : metadata_dict)
  (timestamp : datetime) (collection_time_ms : Z) : M unit :=
  fun w =>
    let timestamp_str := isoformat timestamp in
    match (d <- insert_loop vessels vessel_metadata timestamp_str (db w) ;;
           insert_summary d {| summary_timestamp := timestamp_str;
                               summary_vessel_count := List.length vessels;
                               summary_collection_time_ms := collection_time_ms |})
    with
    | Ok d =>
        print (PrintSaved (List.length vessels))
          {| db := d; latest_json := latest_json w; stdout := stdout w |}
    | Raise e => (Raise e, w)
    end.

(** ** Snapshot export *)

Definition vessel_item (vessel_metadata : metadata_dict) (feature : json) : res json :=
  props <- getitem feature "properties" ;;
  geometry <- getitem feature "geometry" ;;
  coords <- getitem geometry "coordinates" ;;
  mmsi <- dict_get props "mmsi" JNull ;;
  meta <- metadata_get vessel_metadata mmsi ;;
  name <- dict_get meta "name" JNull ;;
  lon <- getindex coords 0 ;;
  lat <- getindex coords 1 ;;
  sog <- dict_get props "sog" JNull ;;
  cog <- dict_get props "cog" JNull ;;
  heading <- dict_get props "heading" JNull ;;
  ship_type <- dict_get meta "ship_type" JNull ;;
  destination <- dict_get meta "destination" JNull ;;
  Ok (JDict [("mmsi", mmsi); ("name", name); ("lon", lon); ("lat", lat);
             ("sog", sog); ("cog", cog); ("heading", heading);
             ("ship_type", ship_type); ("destination", destination)]).

Definition snapshot_output (vessel_list : list json) (timestamp : datetime) : json :=
  JDict [("timestamp", JStr (isoformat timestamp));
         ("vessel_count", JInt (Z.of_nat (List.length vessel_list)));
         ("vessels", JList vessel_list)].

(** What the [with open(latest_file, 'w')] block does to the file, one
    operation at a time: [open] in mode ['w'] creates the file or cuts it to
    length zero; [json.dump] followed by the close at the end of the block
    leaves the whole document in it.  The file system is taken to work: a
    path that cannot be opened or a disk that fills up, which would raise
    after the rows are committed, is outside this model. *)
Inductive file_op : Type :=
| OpenForWriting
| DumpAndClose (doc : json).

Definition file_step (f : file) (op : file_op) : file :=
  match op with
  | OpenForWriting => Truncated
  | DumpAndClose doc => Document doc
  end.

Definition write_ops (output : json) : list file_op :=
  [OpenForWriting; DumpAndClose output].

Definition run_ops (ops : list file_op) (f : file) : file :=
  fold_left file_step ops f.

(** The contents of the file after each operation, in order: what a reader
    of the path can find there while the operations run. *)
Fixpoint observable (ops : list file_op) (f : file) : list file :=
  match ops with
  | [] => []
  | op :: rest => file_step f op :: observable rest (file_step f op)
  end.

Definition export_latest_json (vessels : list json) (vessel_metadata : metadata_dict)
  (timestamp : datetime) : M unit :=
  fun w =>
    match mapM (vessel_item vessel_metadata) vessels with
    | Ok vessel_list =>
        let output := snapshot_output vessel_list timestamp in
        print (PrintExported (List.length vessel_list))
          {| db := db w;
             latest_json := run_ops (write_ops output) (latest_json w);
             stdout := stdout w |}
    | Raise e => (Raise e, w)
    end.

(** [json.load] of the file: only a whole document can be parsed, and it
    parses to the value [json.dump] was given. *)
Definition parse_snapshot (f : file) : option json :=
  match f with
  | Document doc => Some doc
  | _ => None
  end.

(** ** The run *)

(** What one run takes from outside: the clock reading at the start, the
    elapsed milliseconds the second reading gives
    ([int(total_seconds() * 1000)]), and the replies of the two
    endpoints. *)
Record env : Type := {
  clock_start : datetime;
  elapsed_ms : Z;
  locations_reply : http_reply;
  vessels_reply : http_reply
}.

Definition feature_mmsi (f : json) : res json :=
  props <- getitem f "properties" ;;
  getitem props "mmsi".

Definition main (e : env) : M unit :=
  print PrintRule ;;;
  print PrintStarted ;;;
  print PrintRule ;;;
  let start_time := clock_start e in
  let timestamp := start_time in
  print (PrintCollectionTime (isoformat timestamp)) ;;;
  init_database ;;;
  print PrintFetching ;;;
  data <-- fetch_ais_data (locations_reply e) ;;
  if negb (truthy data) then
    print PrintFailed
  else
    print PrintFiltering ;;;
    vessels <-- lift (filter_vessels data) ;;
    print (PrintFound (List.length vessels)) ;;;
    print PrintFetchingMetadata ;;;
    mmsi_list <-- lift (mapM feature_mmsi vessels) ;;
    vessel_metadata <-- fetch_vessel_metadata mmsi_list (vessels_reply e) ;;
    print (PrintRetrieved (List.length vessel_metadata)) ;;;
    let collection_time_ms := elapsed_ms e in
    save_to_database vessels vessel_metadata timestamp collection_time_ms ;;;
    export_latest_json vessels vessel_metadata timestamp ;;;
    print (PrintComplete collection_time_ms) ;;;
    print PrintRule.

(** ** Vocabulary of the properties *)

Definition float_le (x y : pyfloat) : Prop := float_leb x y = true.
Definition float_lt (x y : pyfloat) : Prop := float_ltb x y = true.
Definition float_eq (x y : pyfloat) : Prop := float_eqb x y = true.

(** The rational number [m * 2^e]. *)
Definition dyadic_value (m e : Z) : Q := (inject_Z m * 2 ^ e)%Q.

(** The coordinate pair of a feature: the first two entries of
    [geometry.coordinates], read as numbers. *)
Definition coordinate_pair (feature : json) : option (pyfloat * pyfloat) :=
  match feature with
  | JDict fd =>
      match dict_lookup "geometry" fd with
      | Some (JDict gd) =>
          match dict_lookup "coordinates" gd with
          | Some (JList (vlon :: vlat :: _)) =>
              match as_number vlon, as_number vlat with
              | Some lon, Some lat => Some (lon, lat)
              | _, _ => None
              end
          | _ => None
          end
      | _ => None
      end
  | _ => None
  end.

Definition has_coordinates (feature : json) : bool :=
  match coordinate_pair feature with
  | Some _ => true
  | None => false
  end.

(** [min_lon <= lon <= max_lon] and [min_lat <= lat <= max_lat] *)
Definition within (b : bbox) (lon lat : pyfloat) : Prop :=
  float_le (min_lon b) lon /\ float_le lon (max_lon b) /\
  float_le (min_lat b) lat /\ float_le lat (max_lat b).

Definition withinb (b : bbox) (lon lat : pyfloat) : bool :=
  float_leb (min_lon b) lon && float_leb lon (max_lon b) &&
  float_leb (min_lat b) lat && float_leb lat (max_lat b).

Definition feature_within (b : bbox) (feature : json) : bool :=
  match coordinate_pair feature with
  | Some (lon, lat) => withinb b lon lat
  | None => false
  end.

Definition rows_of {A : Type} (table : option (list A)) : list A :=
  match table with
  | Some rows => rows
  | None => []
  end.

(** A fetch that did not produce a decoded body. *)
Definition fetch_failed (reply : http_reply) : bool :=
  match reply with
  | Body _ => false
  | _ => true
  end.

(** The vessel identifier of a feature, [feature['properties'].get('mmsi')]. *)
Definition identifier (feature : json) : json :=
  match getitem feature "properties" with
  | Ok props =>
      match dict_get props "mmsi" JNull with
      | Ok mmsi => mmsi
      | Raise _ => JNull
      end
  | Raise _ => JNull
  end.

(** The value [fetch_vessel_metadata] returns; it does not depend on the
    world it runs in. *)
Definition lookup_of (mmsi_list : list json) (reply : http_reply) : metadata_dict :=
  match fetch_vessel_metadata mmsi_list reply
          {| db := {| vessel_positions := None; collection_summary := None |};
             latest_json := Absent; stdout := [] |} with
  | (Ok metadata, _) => metadata
  | (Raise _, _) => []
  end.

(** The row a feature is stored as: its parameter tuple, bound. *)
Definition position_row_of (vessel_metadata : metadata_dict) (timestamp_str : string)
  (feature : json) : res position_row :=
  p <- position_params vessel_metadata timestamp_str feature ;;
  bind_params p.

(** The five metadata columns of a stored row are all NULL. *)
Definition row_metadata_null (r : position_row) : Prop :=
  row_name r = SqlNull /\ row_ship_type r = SqlNull /\
  row_destination r = SqlNull /\ row_eta r = SqlNull /\ row_draught r = SqlNull.

(** The three metadata fields of a snapshot entry are all null. *)
Definition item_metadata_null (item : json) : Prop :=
  getitem item "name" = Ok JNull /\ getitem item "ship_type" = Ok JNull /\
  getitem item "destination" = Ok JNull.

(** The identifiers of a list, each counted once: one is left out when a
    later one equals it. *)
Fixpoint distinct (l : list json) : list json :=
  match l with
  | [] => []
  | x :: r => if list_contains r x then distinct r else x :: distinct r
  end.

Definition storable (v : json) : bool :=
  match sqlite_bind v with
  | Ok _ => true
  | Raise _ => false
  end.

Definition prop_of (props : list (string * json)) (k : string) : json :=
  match dict_lookup k props with
  | Some v => v
  | None => JNull
  end.

(** The properties of a report as the store can take them: a vessel
    identifier that is present, hashable and not NULL, and speed, course,
    heading, navigation status and accuracy flag that SQLite can bind. *)
Definition well_formed_properties (feature : json) : bool :=
  match getitem feature "properties" with
  | Ok (JDict props) =>
      match dict_lookup "mmsi" props with
      | Some mmsi =>
          hashable mmsi &&
          match sqlite_bind mmsi with
          | Ok v => negb (is_null v)
          | Raise _ => false
          end
      | None => false
      end &&
      forallb (fun k => storable (prop_of props k))
              ["sog"; "cog"; "heading"; "navStat"; "posAcc"]
  | _ => false
  end.

(** No two keys of a lookup are equal; the earlier key is the left
    operand. *)
Fixpoint keys_distinct (ks : list json) : Prop :=
  match ks with
  | [] => True
  | k :: r => (forall k', In k' r -> py_same k k' = false) /\ keys_distinct r
  end.

(** The shape of a value stored in the lookup. *)
Definition is_entry (v : json) : Prop :=
  exists name ship_type destination eta draught,
    v = JDict [("name", JStr name); ("ship_type", ship_type);
               ("destination", JStr destination); ("eta", eta);
               ("draught", draught)].

(** What holds of the lookup at every turn of the loop. *)
Definition lookup_invariant (mmsi_list : list json) (m : metadata_dict) : Prop :=
  keys_distinct (map fst m) /\
  Forall (fun k => hashable k = true) (map fst m) /\
  (forall k, In k (map fst m) -> list_contains mmsi_list k = true) /\
  Forall (fun kv => is_entry (snd kv)) m.

(** The NOT NULL columns of a row are given. *)
Definition row_not_null (r : position_row) : Prop :=
  is_null (row_mmsi r) = false /\ is_null (row_longitude r) = false /\
  is_null (row_latitude r) = false.

(** A feature without its geometry or without the coordinates in it. *)
Definition missing_coordinates (feature : json) : bool :=
  match feature with
  | JDict fd =>
      match dict_lookup "geometry" fd with
      | None => true
      | Some (JDict gd) =>
          match dict_lookup "coordinates" gd with
          | None => true
          | Some _ => false
          end
      | Some _ => false
      end
  | _ => false
  end.


(** The scenario of the specification: reports at (20, 60), (10, 60) and
    (17.0, 58.5). *)
Definition report (mmsi : Z) (lon lat : json) : json :=
  JDict [("mmsi", JInt mmsi);
         ("geometry", JDict [("type", JStr "Point");
                             ("coordinates", JList [lon; lat])]);
         ("properties", JDict [("mmsi", JInt mmsi); ("sog", JFloat (FFin 21 (-1)));
                               ("cog", JInt 90); ("heading", JInt 91);
                               ("navStat", JInt 0); ("posAcc", JBool true)])].

Definition scenario_features : list json :=
  [report 230000001 (JInt 20) (JInt 60);
   report 230000002 (JInt 10) (JInt 60);
   report 230000003 (JFloat (FFin 17 0)) (JFloat (FFin 117 (-1)))].

Definition scenario : list (string * json) :=
  [("type", JStr "FeatureCollection"); ("features", JList scenario_features)].

(** The contents a reader can find in the snapshot file while
    [export_latest_json] runs, in order. *)
Definition export_file_states (vessels : list json) (vessel_metadata : metadata_dict)
  (timestamp : datetime) (w : world) : list file :=
  match mapM (vessel_item vessel_metadata) vessels with
  | Ok vessel_list =>
      observable (write_ops (snapshot_output vessel_list timestamp)) (latest_json w)
  | Raise _ => []
  end.

(** ** Sample data *)

Definition sample_time : datetime :=
  {| year := 2024; month := 3; day := 9;
     hour := 6; minute := 30; second := 5; microsecond := 120 |}.

Definition fresh_world : world :=
  {| db := {| vessel_positions := None; collection_summary := None |};
     latest_json := Absent; stdout := [] |}.

(** Metadata of two vessels, one of them outside the region. *)
Definition sample_vessels : json :=
  JList [JDict [("mmsi", JInt 230000001); ("name", JStr "  AURORA ");
                ("shipType", JInt 70); ("destination", JStr "TURKU ");
                ("eta", JInt 417792); ("draught", JInt 61)];
         JDict [("mmsi", JInt 311000999); ("name", JStr "FAR AWAY");
                ("shipType", JInt 80); ("destination", JStr "SANTOS")]].

Definition sample_env : env :=
  {| clock_start := sample_time; elapsed_ms := 1840;
     locations_reply := Body (JDict scenario);
     vessels_reply := Body sample_vessels |}.

Definition no_metadata_env : env :=
  {| clock_start := sample_time; elapsed_ms := 1840;
     locations_reply := Body (JDict scenario);
     vessels_reply := StatusError 503 |}.

Definition no_positions_env : env :=
  {| clock_start := sample_time; elapsed_ms := 1840;
     locations_reply := NetworkError;
     vessels_reply := Body sample_vessels |}.

(** A report that lacks its geometry, followed by a sound one. *)
Definition malformed_report : json :=
  JDict [("mmsi", JInt 230000004);
         ("properties", JDict [("mmsi", JInt 230000004); ("sog", JInt 0)])].

Definition malformed_collection : list (string * json) :=
  [("type", JStr "FeatureCollection");
   ("features", JList [malformed_report; report 230000001 (JInt 20) (JInt 60)])].

Definition malformed_env : env :=
  {| clock_start := sample_time; elapsed_ms := 1840;
     locations_reply := Body (JDict malformed_collection);
     vessels_reply := Body sample_vessels |}.

(** A world in which an earlier run has left its snapshot. *)
Definition earlier_snapshot : json := snapshot_output [] sample_time.

Definition later_world : world :=
  {| db := {| vessel_positions := Some []; collection_summary := Some [] |};
     latest_json := Document earlier_snapshot; stdout := [] |}.

(** The world the sample run ends in. *)
Definition sample_result : world := snd (main sample_env fresh_world).

Definition sample_filtered : list json :=
  [report 230000001 (JInt 20) (JInt 60);
   report 230000003 (JFloat (FFin 17 0)) (JFloat (FFin 117 (-1)))].

(** ** Further vocabulary and sample data *)

(** A collection that holds the given value under ['features'] and
    nothing else. *)
Definition collection_of (features : json) : json :=
  JDict [("features", features)].

(** A report west of the region whose latitude is not a number, and one
    inside the longitude range with the same defect. *)
Definition west_report : json :=
  JDict [("geometry", JDict [("coordinates", JList [JInt 10; JNull])])].

Definition east_report : json :=
  JDict [("geometry", JDict [("coordinates", JList [JInt 20; JNull])])].

(** The snapshot entry made from the values of a parameter tuple. *)
Definition item_of_params (p : insert_params) : json :=
  JDict [("mmsi", p_mmsi p); ("name", p_name p); ("lon", p_longitude p);
         ("lat", p_latitude p); ("sog", p_sog p); ("cog", p_cog p);
         ("heading", p_heading p); ("ship_type", p_ship_type p);
         ("destination", p_destination p)].

(** A second run, a little later, over the same replies. *)
Definition later_time : datetime :=
  {| year := 2024; month := 3; day := 9;
     hour := 6; minute := 45; second := 0; microsecond := 0 |}.

Definition later_env : env :=
  {| clock_start := later_time; elapsed_ms := 1795;
     locations_reply := Body (JDict scenario);
     vessels_reply := Body sample_vessels |}.

Definition second_result : world := snd (main later_env sample_result).

(** A reply that decodes to an empty object. *)
Definition empty_payload_env : env :=
  {| clock_start := sample_time; elapsed_ms := 1840;
     locations_reply := Body (JDict []);
     vessels_reply := Body sample_vessels |}.

(** A collection whose only report lies outside the region. *)
Definition outside_env : env :=
  {| clock_start := later_time; elapsed_ms := 12;
     locations_reply :=
       Body (collection_of (JList [report 230000002 (JInt 10) (JInt 60)]));
     vessels_reply := Body sample_vessels |}.

(** The record that supplies the entry of an identifier [k]: the last
    record of the reply whose ['mmsi'] is among [mmsi_list] and is the same
    as [k], as a dictionary lookup tests it. *)
Fixpoint last_record (k : json) (mmsi_list vessels : list json) : option json :=
  match vessels with
  | [] => None
  | vessel :: rest =>
      match last_record k mmsi_list rest with
      | Some r => Some r
      | None =>
          match dict_get vessel "mmsi" JNull with
          | Ok mmsi =>
              if list_contains mmsi_list mmsi && py_same mmsi k
              then Some vessel else None
          | Raise _ => None
          end
      end
  end.

Definition entry_of (record : option json) : option json :=
  match record with
  | Some r =>
      match metadata_entry r with
      | Ok entry => Some entry
      | Raise _ => None
      end
  | None => None
  end.

Fixpoint last_char (c : ascii) (s : string) : ascii :=
  match s with
  | EmptyString => c
  | String c' s' => last_char c' s'
  end.

(** A string that neither begins nor ends with white space. *)
Definition trimmed (s : string) : bool :=
  match s with
  | EmptyString => true
  | String c s' => negb (is_space c) && negb (is_space (last_char c s'))
  end.

(** Two records for one vessel, the later one with another name. *)
Definition renamed_vessels : list json :=
  [JDict [("mmsi", JInt 230000001); ("name", JStr "AURORA");
          ("destination", JStr "TURKU")];
   JDict [("mmsi", JInt 311000999); ("name", JStr "FAR AWAY")];
   JDict [("mmsi", JFloat (FFin 230000001 0)); ("name", JStr " AURORA II");
          ("destination", JStr "KOTKA  ")]].

(** A reply in which the name of a vessel of the region is [null]. *)
Definition unnamed_vessels : list json :=
  [JDict [("mmsi", JInt 230000001); ("name", JStr "AURORA")];
   JDict [("mmsi", JInt 230000003); ("name", JNull)]].

(** A record of the metadata reply that is an object whose ['mmsi'] is
    among the given identifiers. *)
Definition is_object (v : json) : bool :=
  match v with
  | JDict _ => true
  | _ => false
  end.

Definition in_region (mmsi_list : list json) (vessel : json) : bool :=
  match dict_get vessel "mmsi" JNull with
  | Ok mmsi => list_contains mmsi_list mmsi
  | Raise _ => false
  end.

(** A reply with a record outside the region that has no usable name. *)
Definition distant_unnamed_vessels : list json :=
  [JDict [("mmsi", JInt 230000001); ("name", JStr "AURORA")];
   JDict [("mmsi", JInt 311000999); ("name", JNull)]].

(** ** Proof steps *)

Arguments isoformat : simpl never.

(** Runs [main] up to the next call whose result is not yet known. *)
Ltac run_main :=
  cbv beta iota zeta delta
    [main init_database fetch_ais_data mbind print ret lift];
  cbn [db latest_json stdout vessel_positions collection_summary fst snd negb].

(** Splits a chain of binds that is known to return. *)
Ltac bind_head r :=
  lazymatch r with
  | bind ?r' _ => bind_head r'
  | _ => constr:(r)
  end.

Ltac inv_bind H :=
  repeat match type of H with
  | bind ?r _ = Ok _ =>
      let h := bind_head r in
      let E := fresh "E" in
      destruct h eqn:E;
      cbn [bind p_timestamp p_mmsi p_name p_longitude p_latitude p_sog p_cog
           p_heading p_nav_stat p_ship_type p_destination p_eta p_draught
           p_pos_acc] in H;
      [|discriminate H]
  end.

(** ** Order and equality of numbers *)

Lemma pow2_pos (n : Z) : 0 <= n -> 0 < 2 ^ n.
Proof. intros H. apply Z.pow_pos_nonneg; lia. Qed.

(** The comparison does not depend on the common exponent chosen. *)
Lemma dyadic_compare_scale (m1 e1 m2 e2 k : Z) :
  k <= e1 -> k <= e2 ->
  dyadic_compare m1 e1 m2 e2 = (m1 * 2 ^ (e1 - k) ?= m2 * 2 ^ (e2 - k)).
Proof.
  intros H1 H2. unfold dyadic_compare.
  set (e := Z.min e1 e2).
  assert (He : k <= e) by (unfold e; lia).
  assert (He1 : e <= e1) by (unfold e; lia).
  assert (He2 : e <= e2) by (unfold e; lia).
  replace (e1 - k) with ((e1 - e) + (e - k)) by lia.
  replace (e2 - k) with ((e2 - e) + (e - k)) by lia.
  rewrite !Z.pow_add_r by lia.
  rewrite !Z.mul_assoc.
  symmetry. rewrite <- Zmult_compare_compat_r; [reflexivity|].
  pose proof (pow2_pos (e - k)). lia.
Qed.

Lemma dyadic_compare_antisym (m1 e1 m2 e2 : Z) :
  dyadic_compare m2 e2 m1 e1 = CompOpp (dyadic_compare m1 e1 m2 e2).
Proof.
  unfold dyadic_compare. rewrite (Z.min_comm e2 e1). apply Z.compare_antisym.
Qed.

(** The three numbers are brought to one exponent, where the order is the
    order of the integers. *)
Lemma dyadic_compare_common (m1 e1 m2 e2 m3 e3 : Z) :
  exists a b c : Z,
    dyadic_compare m1 e1 m2 e2 = (a ?= b) /\
    dyadic_compare m2 e2 m3 e3 = (b ?= c) /\
    dyadic_compare m1 e1 m3 e3 = (a ?= c).
Proof.
  set (k := Z.min e1 (Z.min e2 e3)).
  exists (m1 * 2 ^ (e1 - k)), (m2 * 2 ^ (e2 - k)), (m3 * 2 ^ (e3 - k)).
  repeat split; apply dyadic_compare_scale; unfold k; lia.
Qed.

Lemma float_eqb_sym (x y : pyfloat) : float_eqb x y = float_eqb y x.
Proof.
  unfold float_eqb.
  destruct x as [|[]|m1 e1], y as [|[]|m2 e2]; simpl; try reflexivity.
  rewrite (dyadic_compare_antisym m1 e1 m2 e2).
  destruct (dyadic_compare m1 e1 m2 e2); reflexivity.
Qed.

Lemma float_eqb_trans (x y z : pyfloat) :
  float_eqb x y = true -> float_eqb y z = true -> float_eqb x z = true.
Proof.
  unfold float_eqb.
  destruct x as [|[]|m1 e1], y as [|[]|m2 e2], z as [|[]|m3 e3];
    simpl; try congruence.
  destruct (dyadic_compare_common m1 e1 m2 e2 m3 e3) as (a & b & c & -> & -> & ->).
  destruct (Z.compare_spec a b); try discriminate.
  destruct (Z.compare_spec b c); try discriminate.
  subst. now rewrite Z.compare_refl.
Qed.

Lemma float_leb_trans (x y z : pyfloat) :
  float_leb x y = true -> float_leb y z = true -> float_leb x z = true.
Proof.
  unfold float_leb.
  destruct x as [|[]|m1 e1], y as [|[]|m2 e2], z as [|[]|m3 e3];
    simpl; try congruence.
  destruct (dyadic_compare_common m1 e1 m2 e2 m3 e3) as (a & b & c & -> & -> & ->).
  destruct (Z.compare_spec a b); try discriminate;
    destruct (Z.compare_spec b c); try discriminate;
    destruct (Z.compare_spec a c); try reflexivity; lia.
Qed.

Lemma float_eqb_leb (x y : pyfloat) :
  float_eqb x y = true -> float_leb x y = true /\ float_leb y x = true.
Proof.
  intros H. assert (H' : float_eqb y x = true) by now rewrite float_eqb_sym.
  unfold float_eqb, float_leb in *.
  destruct (float_compare x y) as [[]|], (float_compare y x) as [[]|];
    try discriminate; auto.
Qed.

Lemma float_ltb_not_leb (x y : pyfloat) :
  float_ltb x y = true -> float_leb y x = false.
Proof.
  unfold float_ltb, float_leb.
  destruct x as [|[]|m1 e1], y as [|[]|m2 e2]; simpl; try congruence.
  rewrite (dyadic_compare_antisym m1 e1 m2 e2).
  destruct (dyadic_compare m1 e1 m2 e2); simpl; congruence.
Qed.

(** On integers the order is the order of [Z]. *)
Lemma float_leb_int (a b : Z) : float_leb (FFin a 0) (FFin b 0) = (a <=? b).
Proof.
  unfold float_leb, float_compare, dyadic_compare. simpl.
  rewrite !Z.mul_1_r. unfold Z.leb. destruct (a ?= b); reflexivity.
Qed.

(** The comparison is the order of the values: scaling to a common
    exponent multiplies both sides by the same positive number. *)
Lemma dyadic_value_scale (m e k : Z) :
  k <= e -> (dyadic_value m e == inject_Z (m * 2 ^ (e - k)) * 2 ^ k)%Q.
Proof.
  intros H. unfold dyadic_value.
  rewrite inject_Z_mult, Zpower_Qpower by lia.
  rewrite <- Qmult_assoc, <- Qpower_plus by discriminate.
  replace (e - k + k) with e by lia. reflexivity.
Qed.

Lemma Qcompare_scaled (a b : Z) (c : Q) :
  (0 < c)%Q -> (inject_Z a * c ?= inject_Z b * c)%Q = (a ?= b).
Proof.
  intros Hc. destruct (Z.compare_spec a b) as [->|H|H].
  - apply Qeq_alt. reflexivity.
  - apply Qlt_alt. apply Qmult_lt_compat_r; [exact Hc|]. now rewrite <- Zlt_Qlt.
  - apply Qgt_alt. apply Qmult_lt_compat_r; [exact Hc|]. now rewrite <- Zlt_Qlt.
Qed.

Lemma dyadic_compare_value (m1 e1 m2 e2 : Z) :
  dyadic_compare m1 e1 m2 e2 = (dyadic_value m1 e1 ?= dyadic_value m2 e2)%Q.
Proof.
  unfold dyadic_compare. cbv zeta.
  rewrite (dyadic_value_scale m1 e1 (Z.min e1 e2)) by lia.
  rewrite (dyadic_value_scale m2 e2 (Z.min e1 e2)) by lia.
  symmetry. apply Qcompare_scaled. now apply Qpower_0_lt.
Qed.

Lemma float_leb_value (m1 e1 m2 e2 : Z) :
  float_leb (FFin m1 e1) (FFin m2 e2) = true <->
  (dyadic_value m1 e1 <= dyadic_value m2 e2)%Q.
Proof.
  unfold float_leb, float_compare. rewrite dyadic_compare_value, Qle_alt.
  destruct (dyadic_value m1 e1 ?= dyadic_value m2 e2)%Q;
    split; congruence.
Qed.

(** The constants of [BBOX]: 17, 58.5 and 66 are exact; the double written
    30.3 is within half a unit in the last place (2^-49) of 303/10. *)
Lemma BBOX_values :
  min_lon BBOX = FFin 17 0 /\
  min_lat BBOX = FFin 117 (-1) /\ 117 = 2 * 58 + 1 /\
  max_lat BBOX = FFin 66 0 /\
  max_lon BBOX = FFin 8528691794332877 (-48) /\
  Z.abs (10 * 8528691794332877 - 303 * 2 ^ 48) * 2 <= 10.
Proof. repeat split; vm_compute; congruence. Qed.

(** ** The geographic filter *)

Lemma coordinate_pair_inv (f : json) (lon lat : pyfloat) :
  coordinate_pair f = Some (lon, lat) ->
  exists g c vlon vlat,
    getitem f "geometry" = Ok g /\ getitem g "coordinates" = Ok c /\
    getindex c 0 = Ok vlon /\ getindex c 1 = Ok vlat /\
    as_number vlon = Some lon /\ as_number vlat = Some lat.
Proof.
  unfold coordinate_pair. intros H.
  destruct f as [| | | | |?|fd]; try discriminate.
  destruct (dict_lookup "geometry" fd) as [g|] eqn:Hg; try discriminate.
  destruct g as [| | | | |?|gd]; try discriminate.
  destruct (dict_lookup "coordinates" gd) as [c|] eqn:Hc; try discriminate.
  destruct c as [| | | | |[|vlon [|vlat cs]]|?]; try discriminate.
  destruct (as_number vlon) as [x|] eqn:Hx; try discriminate.
  destruct (as_number vlat) as [y|] eqn:Hy; try discriminate.
  injection H as <- <-.
  exists (JDict gd), (JList (vlon :: vlat :: cs)), vlon, vlat.
  simpl. rewrite Hg, Hc. repeat split; assumption.
Qed.

Lemma in_bbox_numbers (vlon vlat : json) (lon lat : pyfloat) :
  as_number vlon = Some lon -> as_number vlat = Some lat ->
  in_bbox vlon vlat = Ok (withinb BBOX lon lat).
Proof.
  intros Hx Hy. unfold in_bbox, float_le_value, value_le_float, withinb.
  rewrite Hx, Hy. simpl.
  destruct (float_leb (FFin 17 0) lon); simpl; [|reflexivity].
  destruct (float_leb lon _); simpl; [|reflexivity].
  destruct (float_leb _ lat); simpl; reflexivity.
Qed.

Lemma withinb_within (b : bbox) (lon lat : pyfloat) :
  withinb b lon lat = true <-> within b lon lat.
Proof.
  unfold withinb, within, float_le.
  rewrite !andb_true_iff. tauto.
Qed.

Lemma filter_loop_well_formed (features filtered : list json) :
  forallb has_coordinates features = true ->
  filter_loop features filtered =
  Ok (filtered ++ filter (feature_within BBOX) features)%list.
Proof.
  revert filtered.
  induction features as [|f rest IH]; intros filtered H; simpl.
  - now rewrite app_nil_r.
  - simpl in H. apply andb_true_iff in H as [Hf Hrest].
    unfold has_coordinates in Hf. unfold feature_within.
    destruct (coordinate_pair f) as [[lon lat]|] eqn:Hp; [|discriminate].
    destruct (coordinate_pair_inv _ _ _ Hp)
      as (g & c & vlon & vlat & -> & Hg & H0 & H1 & Hx & Hy).
    simpl. rewrite Hg. simpl. rewrite H0. simpl. rewrite H1. simpl.
    rewrite (in_bbox_numbers _ _ _ _ Hx Hy). simpl.
    rewrite IH by assumption.
    destruct (withinb BBOX lon lat); [|reflexivity].
    now rewrite <- app_assoc.
Qed.

Lemma filter_vessels_features (d : list (string * json)) (v : json) :
  dict_lookup "features" d = Some v ->
  filter_vessels (JDict d) = (items <- py_iter v ;; filter_loop items []).
Proof.
  intros H. unfold filter_vessels. simpl.
  destruct d as [|kv d']; [discriminate|].
  unfold contains_str, getitem. rewrite H. reflexivity.
Qed.

(** C1.  On a feature collection whose features all carry a coordinate
    pair, [filter_vessels] returns, in their order, exactly the features
    whose pair satisfies [min_lon <= lon <= max_lon] and
    [min_lat <= lat <= max_lat] for the fixed [BBOX].  The four edges are
    inclusive: a coordinate equal to a bound is kept when the other
    coordinate is in range, and a coordinate strictly beyond any edge is
    dropped. *)
Theorem filter_vessels_bounding_box (d : list (string * json)) (features : list json) :
  dict_lookup "features" d = Some (JList features) ->
  forallb has_coordinates features = true ->
  exists filtered,
    filter_vessels (JDict d) = Ok filtered /\
    filtered = filter (feature_within BBOX) features /\
    forall f lon lat,
      In f features -> coordinate_pair f = Some (lon, lat) ->
      (In f filtered <-> within BBOX lon lat) /\
      ((float_eq lon (min_lon BBOX) \/ float_eq lon (max_lon BBOX)) ->
       float_le (min_lat BBOX) lat -> float_le lat (max_lat BBOX) ->
       In f filtered) /\
      ((float_eq lat (min_lat BBOX) \/ float_eq lat (max_lat BBOX)) ->
       float_le (min_lon BBOX) lon -> float_le lon (max_lon BBOX) ->
       In f filtered) /\
      (float_lt lon (min_lon BBOX) \/ float_lt (max_lon BBOX) lon \/
       float_lt lat (min_lat BBOX) \/ float_lt (max_lat BBOX) lat ->
       ~ In f filtered).
Proof.
  intros Hd Hwf.
  exists (filter (feature_within BBOX) features).
  split.
  { rewrite (filter_vessels_features _ _ Hd). simpl.
    now rewrite filter_loop_well_formed. }
  split; [reflexivity|].
  intros f lon lat Hin Hp.
  assert (Hiff : In f (filter (feature_within BBOX) features) <-> within BBOX lon lat).
  { rewrite filter_In. unfold feature_within. rewrite Hp.
    rewrite withinb_within. tauto. }
  assert (Hlon : float_leb (min_lon BBOX) (max_lon BBOX) = true) by reflexivity.
  assert (Hlat : float_leb (min_lat BBOX) (max_lat BBOX) = true) by reflexivity.
  split; [exact Hiff|]. unfold float_eq, float_le, float_lt in *.
  split; [|split].
  - intros [He|He] H1 H2; apply Hiff; unfold within, float_le;
      destruct (float_eqb_leb _ _ He) as [Ha Hb]; repeat split; auto.
    + eapply float_leb_trans; eauto.
    + eapply float_leb_trans; eauto.
  - intros [He|He] H1 H2; apply Hiff; unfold within, float_le;
      destruct (float_eqb_leb _ _ He) as [Ha Hb]; repeat split; auto.
    + eapply float_leb_trans; eauto.
    + eapply float_leb_trans; eauto.
  - intros Hout Hf. apply Hiff in Hf. destruct Hf as (H1 & H2 & H3 & H4).
    unfold float_le in *.
    destruct Hout as [H|[H|[H|H]]]; apply float_ltb_not_leb in H; congruence.
Qed.

Lemma filter_vessels_bounding_box_witness :
  exists filtered,
    filter_vessels (JDict scenario) = Ok filtered /\
    filtered = filter (feature_within BBOX) scenario_features /\
    forall f lon lat,
      In f scenario_features -> coordinate_pair f = Some (lon, lat) ->
      (In f filtered <-> within BBOX lon lat) /\
      ((float_eq lon (min_lon BBOX) \/ float_eq lon (max_lon BBOX)) ->
       float_le (min_lat BBOX) lat -> float_le lat (max_lat BBOX) ->
       In f filtered) /\
      ((float_eq lat (min_lat BBOX) \/ float_eq lat (max_lat BBOX)) ->
       float_le (min_lon BBOX) lon -> float_le lon (max_lon BBOX) ->
       In f filtered) /\
      (float_lt lon (min_lon BBOX) \/ float_lt (max_lon BBOX) lon \/
       float_lt lat (min_lat BBOX) \/ float_lt (max_lat BBOX) lat ->
       ~ In f filtered).
Proof.
  apply (filter_vessels_bounding_box scenario scenario_features).
  - reflexivity.
  - reflexivity.
Defined.

Example filter_vessels_scenario :
  filter_vessels (JDict scenario) =
  Ok [report 230000001 (JInt 20) (JInt 60);
      report 230000003 (JFloat (FFin 17 0)) (JFloat (FFin 117 (-1)))].
Proof. reflexivity. Qed.

(** C10.  On [None], and on a mapping without a ['features'] key,
    [filter_vessels] returns the empty list; it does not raise. *)
Theorem filter_vessels_no_features (data : json) :
  data = JNull \/ (exists d, data = JDict d /\ dict_lookup "features" d = None) ->
  filter_vessels data = Ok [].
Proof.
  intros [->|(d & -> & H)]; [reflexivity|].
  unfold filter_vessels. destruct d as [|kv d']; [reflexivity|].
  simpl truthy. simpl negb. cbv iota.
  unfold contains_str. rewrite H. reflexivity.
Qed.

Lemma filter_vessels_no_features_witness :
  filter_vessels (JDict [("type", JStr "FeatureCollection")]) = Ok [].
Proof.
  apply (filter_vessels_no_features (JDict [("type", JStr "FeatureCollection")])).
  right. exists [("type", JStr "FeatureCollection")]. split; reflexivity.
Defined.

(** ** The run, step by step *)

Lemma rows_of_create_if_missing {A : Type} (t : option (list A)) :
  rows_of (create_if_missing t) = rows_of t.
Proof. destruct t; reflexivity. Qed.

(** C2.  When the fetch of the position reports fails, the run returns
    early: the rows of [vessel_positions] and of [collection_summary] are
    as before and the snapshot file is untouched. *)
Theorem main_position_fetch_fails (e : env) (w : world) :
  fetch_failed (locations_reply e) = true ->
  exists w',
    main e w = (Ok tt, w') /\
    rows_of (vessel_positions (db w')) = rows_of (vessel_positions (db w)) /\
    rows_of (collection_summary (db w')) = rows_of (collection_summary (db w)) /\
    latest_json w' = latest_json w /\
    In PrintFailed (stdout w').
Proof.
  intros H. run_main.
  destruct (locations_reply e); try discriminate H;
    cbn; eexists; (split; [reflexivity|]); cbn;
    rewrite !rows_of_create_if_missing;
    (repeat split; try reflexivity);
    apply in_or_app; right; left; reflexivity.
Qed.

(** ** Lists built under [res] *)

Section MapM.
Context {A B : Type} (f : A -> res B).

Lemma mapM_Forall2 (l : list A) (l' : list B) :
  mapM f l = Ok l' -> Forall2 (fun a b => f a = Ok b) l l'.
Proof.
  revert l'. induction l as [|a l IH]; intros l' H; simpl in H.
  - injection H as <-. constructor.
  - inv_bind H. injection H as <-. constructor; auto.
Qed.

Lemma mapM_length (l : list A) (l' : list B) :
  mapM f l = Ok l' -> List.length l' = List.length l.
Proof.
  intros H. apply mapM_Forall2 in H.
  symmetry. eapply Forall2_length; eauto.
Qed.

Lemma mapM_exists (Q : A -> B -> Prop) (l : list A) :
  (forall a, In a l -> exists b, f a = Ok b /\ Q a b) ->
  exists l', mapM f l = Ok l' /\ Forall2 Q l l'.
Proof.
  induction l as [|a l IH]; intros H.
  - exists []. split; [reflexivity|constructor].
  - destruct (H a (or_introl eq_refl)) as (b & Hb & HQ).
    destruct IH as (l' & Hl' & HF); [intros; apply H; right; assumption|].
    exists (b :: l'). simpl. rewrite Hb, Hl'. split; [reflexivity|].
    constructor; assumption.
Qed.
End MapM.

(** ** What the filter lets through *)

Lemma in_bbox_true (vlon vlat : json) :
  in_bbox vlon vlat = Ok true ->
  exists lon lat,
    as_number vlon = Some lon /\ as_number vlat = Some lat /\
    withinb BBOX lon lat = true.
Proof.
  unfold in_bbox, float_le_value, value_le_float, withinb. intros H.
  destruct (as_number vlon) as [lon|]; [|discriminate].
  cbn [bind] in H.
  destruct (float_leb (min_lon BBOX) lon) eqn:H1; [|discriminate].
  cbn [negb bind] in H.
  destruct (float_leb lon (max_lon BBOX)) eqn:H2; [|discriminate].
  cbn [negb] in H.
  destruct (as_number vlat) as [lat|]; [|discriminate].
  cbn [bind] in H.
  destruct (float_leb (min_lat BBOX) lat) eqn:H3; [|discriminate].
  cbn [negb] in H. injection H as H.
  exists lon, lat. rewrite H1, H2, H3.
  split; [reflexivity|]. split; [reflexivity|]. exact H.
Qed.

Lemma number_at_index (c vlon : json) (i : nat) (x : pyfloat) :
  getindex c i = Ok vlon -> as_number vlon = Some x ->
  exists cs, c = JList cs /\ nth_error cs i = Some vlon.
Proof.
  intros H Hx. destruct c; simpl in H; try discriminate.
  - destruct (String.get i s); [|discriminate].
    injection H as <-. discriminate.
  - destruct (nth_error l i) eqn:E; [|discriminate].
    injection H as ->. eauto.
Qed.

Lemma getitem_dict (v x : json) (k : string) :
  getitem v k = Ok x -> exists d, v = JDict d /\ dict_lookup k d = Some x.
Proof.
  destruct v; simpl; try discriminate.
  destruct (dict_lookup k d) eqn:E; [|discriminate].
  intros H. injection H as ->. eauto.
Qed.

Lemma filter_loop_within (features filtered out : list json) :
  filter_loop features filtered = Ok out ->
  Forall (fun f => feature_within BBOX f = true) filtered ->
  Forall (fun f => feature_within BBOX f = true) out.
Proof.
  revert filtered.
  induction features as [|f rest IH]; intros filtered H Hacc; simpl in H.
  - now injection H as <-.
  - inv_bind H. apply IH in H; [exact H|].
    destruct a3; [|exact Hacc].
    apply Forall_app. split; [exact Hacc|].
    constructor; [|constructor].
    destruct (in_bbox_true _ _ E3) as (lon & lat & Hx & Hy & Hw).
    destruct (number_at_index _ _ _ _ E1 Hx) as (cs & -> & H0).
    unfold getindex in E2. destruct (nth_error cs 1) eqn:H1; [|discriminate E2].
    injection E2 as ->.
    destruct (getitem_dict _ _ _ E) as (fd & -> & Hg).
    destruct (getitem_dict _ _ _ E0) as (gd & -> & Hc).
    unfold feature_within, coordinate_pair. rewrite Hg, Hc.
    destruct cs as [|c0 [|c1 cs]]; try discriminate.
    simpl in H0, H1. injection H0 as ->. injection H1 as ->.
    now rewrite Hx, Hy.
Qed.

Lemma filter_vessels_within (data : json) (vessels : list json) :
  filter_vessels data = Ok vessels ->
  Forall (fun f => feature_within BBOX f = true) vessels.
Proof.
  unfold filter_vessels. intros H.
  destruct (negb (truthy data)); [injection H as <-; constructor|].
  inv_bind H.
  destruct (negb a); [injection H as <-; constructor|].
  inv_bind H. eapply filter_loop_within; eauto.
Qed.

(** ** Equality of identifiers *)

Lemma float_same_sym (x y : pyfloat) : float_same x y = float_same y x.
Proof.
  destruct x as [|[]|m1 e1], y as [|[]|m2 e2]; try reflexivity.
  apply float_eqb_sym.
Qed.

Lemma float_same_trans (x y z : pyfloat) :
  float_same x y = true -> float_same y z = true -> float_same x z = true.
Proof.
  destruct x as [|[]|m1 e1], y as [|[]|m2 e2], z as [|[]|m3 e3];
    try reflexivity; try discriminate.
  apply float_eqb_trans.
Qed.

Lemma py_same_sym (a b : json) : hashable a = true -> py_same a b = py_same b a.
Proof.
  intros Ha.
  destruct a, b; try discriminate Ha; cbn [py_same as_number];
    try reflexivity; try apply float_same_sym; apply String.eqb_sym.
Qed.

Lemma py_same_hashable (a b : json) :
  hashable a = true -> py_same a b = true -> hashable b = true.
Proof.
  intros Ha H.
  destruct a, b; try discriminate Ha; try reflexivity;
    cbn [py_same as_number] in H; discriminate H.
Qed.

Lemma py_same_trans (a b c : json) :
  hashable a = true -> py_same a b = true -> py_same b c = true ->
  py_same a c = true.
Proof.
  intros Ha Hab Hbc.
  destruct a; try discriminate Ha;
    destruct b; cbn [py_same as_number] in Hab; try discriminate Hab;
    destruct c; cbn [py_same as_number] in Hbc |- *; try discriminate Hbc;
    try reflexivity;
    try (eapply float_same_trans; eassumption).
  apply String.eqb_eq in Hab, Hbc. subst. apply String.eqb_refl.
Qed.

(** A NaN identifier equals nothing, itself included, and is found all the
    same: the reply and the filtered list hold one and the same object. *)
Example nan_identifier_is_found :
  py_eq (JFloat FNan) (JFloat FNan) = false /\
  list_contains [JFloat FNan] (JFloat FNan) = true /\
  metadata_find (JFloat FNan)
    (lookup_of [JFloat FNan]
       (Body (JList [JDict [("mmsi", JFloat FNan); ("name", JStr "X")]]))) =
  Some (JDict [("name", JStr "X"); ("ship_type", JNull);
               ("destination", JStr ""); ("eta", JNull); ("draught", JNull)]).
Proof. repeat split; reflexivity. Qed.

(** ** Counting the keys of the lookup *)

Lemma list_contains_In (l : list json) (x : json) :
  list_contains l x = true <-> exists e, In e l /\ py_same e x = true.
Proof. unfold list_contains. apply existsb_exists. Qed.

Lemma keys_distinct_snoc (ks : list json) (k : json) :
  keys_distinct ks -> (forall k', In k' ks -> py_same k' k = false) ->
  keys_distinct (ks ++ [k]).
Proof.
  induction ks as [|a ks IH]; simpl; intros H Hk.
  - split; [intros ? []|exact I].
  - destruct H as [Ha Hks]. split.
    + intros k' Hin. apply in_app_or in Hin as [Hin|[<-|[]]]; auto.
    + apply IH; auto.
Qed.

Lemma keys_distinct_filter (p : json -> bool) (ks : list json) :
  keys_distinct ks -> keys_distinct (filter p ks).
Proof.
  induction ks as [|a ks IH]; simpl; intros H; [exact I|].
  destruct H as [Ha Hks]. destruct (p a); simpl; auto.
  split; auto. intros k' Hin. apply filter_In in Hin as [Hin _]. auto.
Qed.

Lemma filter_all (p : json -> bool) (l : list json) :
  (forall x, In x l -> p x = true) -> filter p l = l.
Proof.
  induction l as [|a l IH]; simpl; intros H; [reflexivity|].
  rewrite (H a) by auto. f_equal. apply IH. auto.
Qed.

(** At most one key equals a given identifier. *)
Lemma at_most_one_key (x : json) (ks : list json) :
  keys_distinct ks -> Forall (fun k => hashable k = true) ks ->
  (List.length ks <= S (List.length (filter (fun k => negb (py_same x k)) ks)))%nat.
Proof.
  induction ks as [|k r IH]; simpl; intros Hd Hh; [lia|].
  destruct Hd as [Hk Hr]. inversion Hh as [|? ? Hhk Hhr]; subst.
  destruct (py_same x k) eqn:Hxk; simpl.
  - rewrite filter_all; [lia|].
    intros k' Hin. apply negb_true_iff.
    destruct (py_same x k') eqn:Hxk'; [|reflexivity].
    assert (Hkx : py_same k x = true) by (rewrite py_same_sym; assumption).
    rewrite <- (Hk k' Hin). symmetry. eapply py_same_trans; eauto.
  - specialize (IH Hr Hhr). lia.
Qed.

Lemma distinct_bound (ids ks : list json) :
  keys_distinct ks -> Forall (fun k => hashable k = true) ks ->
  (forall k, In k ks -> list_contains ids k = true) ->
  (List.length ks <= List.length (distinct ids))%nat.
Proof.
  revert ks. induction ids as [|x r IH]; intros ks Hd Hh Hin.
  - destruct ks as [|k ks]; [simpl; lia|].
    specialize (Hin k (or_introl eq_refl)). discriminate Hin.
  - simpl. destruct (list_contains r x) eqn:Hx.
    + apply IH; auto. intros k Hk.
      specialize (Hin k Hk). simpl in Hin. apply orb_true_iff in Hin as [Hxk|]; auto.
      apply list_contains_In in Hx as (e & He & Hex).
      apply list_contains_In. exists e. split; [exact He|].
      assert (Hhk : hashable k = true)
        by (rewrite Forall_forall in Hh; auto).
      assert (Hkx : py_same k x = true) by (rewrite py_same_sym; assumption).
      assert (Hhx : hashable x = true) by (eapply py_same_hashable; eauto).
      assert (Hxe : py_same x e = true) by (rewrite py_same_sym; assumption).
      rewrite <- py_same_sym by assumption. eapply py_same_trans; eauto.
    + pose proof (at_most_one_key x ks Hd Hh) as H1.
      set (ks' := filter (fun k => negb (py_same x k)) ks) in *.
      assert (H2 : (List.length ks' <= List.length (distinct r))%nat).
      { apply IH.
        - apply keys_distinct_filter; assumption.
        - unfold ks'. rewrite Forall_forall in *. intros k Hk.
          apply filter_In in Hk as [Hk _]. auto.
        - intros k Hk. unfold ks' in Hk. apply filter_In in Hk as [Hk Hn].
          specialize (Hin k Hk). simpl in Hin.
          apply negb_true_iff in Hn. rewrite Hn in Hin. exact Hin. }
      simpl. lia.
Qed.

(** ** The lookup [fetch_vessel_metadata] builds *)

Lemma metadata_update_keys (k v : json) (m : metadata_dict) :
  map fst (metadata_update k v m) =
  if list_contains (map fst m) k then map fst m else (map fst m ++ [k])%list.
Proof.
  induction m as [|[k' v'] m IH]; simpl; [reflexivity|].
  destruct (py_same k' k) eqn:E; simpl; [reflexivity|].
  rewrite IH. destruct (list_contains (map fst m) k); reflexivity.
Qed.

Lemma metadata_update_values (P : json -> Prop) (k v : json) (m : metadata_dict) :
  P v -> Forall (fun kv => P (snd kv)) m ->
  Forall (fun kv => P (snd kv)) (metadata_update k v m).
Proof.
  intros Hv. induction m as [|[k' v'] m IH]; simpl; intros H.
  - constructor; [exact Hv|constructor].
  - inversion H; subst. destruct (py_same k' k); constructor; auto.
Qed.

Lemma metadata_entry_shape (vessel v : json) :
  metadata_entry vessel = Ok v -> is_entry v.
Proof.
  unfold metadata_entry. intros H. inv_bind H.
  destruct a; try discriminate E0. destruct a2; try discriminate E3.
  simpl in E0, E3. injection E0 as <-. injection E3 as <-.
  injection H as <-. unfold is_entry. eauto 10.
Qed.

Lemma metadata_loop_invariant (vessels mmsi_list : list json) (m m' : metadata_dict) :
  metadata_loop vessels mmsi_list m = Ok m' ->
  lookup_invariant mmsi_list m -> lookup_invariant mmsi_list m'.
Proof.
  revert m. induction vessels as [|vessel rest IH]; intros m H Hinv; simpl in H.
  - now injection H as <-.
  - inv_bind H.
    destruct (list_contains mmsi_list a) eqn:Hc; [|eauto].
    inv_bind H. apply IH in H; [exact H|].
    unfold metadata_set in E1.
    destruct (hashable a) eqn:Hh; [|discriminate E1].
    injection E1 as <-.
    destruct Hinv as (Hd & Hhs & Hin & Hv).
    unfold lookup_invariant. rewrite metadata_update_keys.
    destruct (list_contains (map fst m) a) eqn:Hk.
    + repeat split; auto.
      apply metadata_update_values; auto. eapply metadata_entry_shape; eauto.
    + repeat split.
      * apply keys_distinct_snoc; auto. intros k' Hk'.
        destruct (py_same k' a) eqn:E'; [|reflexivity].
        rewrite <- Hk. symmetry. apply list_contains_In. eauto.
      * apply Forall_app. split; auto.
      * intros k Hk'. apply in_app_or in Hk' as [|[<-|[]]]; auto.
      * apply metadata_update_values; auto. eapply metadata_entry_shape; eauto.
Qed.

Lemma lookup_invariant_empty (mmsi_list : list json) : lookup_invariant mmsi_list [].
Proof.
  repeat split; simpl; try constructor. intros k [].
Qed.

(** [fetch_vessel_metadata] always returns; it touches neither the store
    nor the snapshot. *)
Lemma fetch_vessel_metadata_returns (mmsi_list : list json) (reply : http_reply)
  (w : world) :
  exists out,
    fetch_vessel_metadata mmsi_list reply w =
    (Ok (lookup_of mmsi_list reply),
     {| db := db w; latest_json := latest_json w; stdout := out |}) /\
    lookup_invariant mmsi_list (lookup_of mmsi_list reply).
Proof.
  unfold lookup_of, fetch_vessel_metadata.
  destruct reply as [| | |vessels];
    try (eexists; split; [reflexivity|apply lookup_invariant_empty]).
  destruct (items <- py_iter vessels;; metadata_loop items mmsi_list []) as [m|x] eqn:E.
  - exists (stdout w). split; [destruct w; reflexivity|].
    cbn. inv_bind E.
    eapply metadata_loop_invariant; eauto. apply lookup_invariant_empty.
  - eexists; split; [reflexivity|apply lookup_invariant_empty].
Qed.

Lemma fetch_failed_lookup (mmsi_list : list json) (reply : http_reply) :
  fetch_failed reply = true -> lookup_of mmsi_list reply = [].
Proof. destruct reply; try discriminate; reflexivity. Qed.

Lemma feature_mmsi_identifier (f k : json) :
  feature_mmsi f = Ok k -> identifier f = k.
Proof.
  unfold feature_mmsi, identifier. intros H. inv_bind H.
  destruct (getitem_dict _ _ _ H) as (d & -> & Hk).
  simpl. now rewrite Hk.
Qed.

(** C4.  Every key of the lookup built for the filtered features is the
    same as the identifier of one of them, by the test [mmsi in mmsi_list]
    that let it in, so the lookup holds no vessel outside the filtered set
    and has at most as many entries as the set has distinct identifiers. *)
Theorem metadata_lookup_restricted (vessels mmsi_list : list json)
  (reply : http_reply) (w : world) :
  mapM feature_mmsi vessels = Ok mmsi_list ->
  exists metadata w',
    fetch_vessel_metadata mmsi_list reply w = (Ok metadata, w') /\
    (forall k, In k (map fst metadata) ->
       exists f, In f vessels /\ py_same (identifier f) k = true) /\
    (List.length metadata <= List.length (distinct mmsi_list))%nat.
Proof.
  intros Hids.
  destruct (fetch_vessel_metadata_returns mmsi_list reply w)
    as (out & Hrun & Hd & Hh & Hin & _).
  eexists. eexists. split; [exact Hrun|]. split.
  - intros k Hk. apply Hin in Hk. apply list_contains_In in Hk as (e & He & Hek).
    apply mapM_Forall2 in Hids.
    clear - Hids He Hek. induction Hids as [|f i vs ids' Hf _ IH].
    + destruct He.
    + destruct He as [<-|He].
      * exists f. split; [left; reflexivity|].
        now rewrite (feature_mmsi_identifier _ _ Hf).
      * destruct (IH He) as (f' & Hf' & Heq). exists f'. split; [right|]; auto.
  - rewrite <- (length_map fst). apply distinct_bound; auto.
Qed.

(** ** Enriched records *)


Lemma bound_number_not_null (c x : pyfloat) (v : json) (s : sqlval) :
  as_number v = Some x -> float_leb c x = true -> sqlite_bind v = Ok s ->
  s <> SqlNull.
Proof.
  intros Hx Hle Hb.
  destruct v; simpl in Hx; try discriminate Hx; simpl in Hb.
  - injection Hb as <-. discriminate.
  - destruct (_ && _); [|discriminate Hb]. injection Hb as <-. discriminate.
  - injection Hx as ->. destruct x; try (injection Hb as <-; discriminate).
    destruct c as [|[]|]; discriminate Hle.
Qed.



Section Records.
Variable md : metadata_dict.
Hypothesis md_entries : Forall (fun kv => is_entry (snd kv)) md.




End Records.

(** ** Writing the store *)

Lemma insert_position_inv (d d' : database) (p : insert_params) :
  insert_position d p = Ok d' ->
  exists r,
    bind_params p = Ok r /\
    vessel_positions d' = Some (rows_of (vessel_positions d) ++ [r])%list /\
    collection_summary d' = collection_summary d /\ row_not_null r.
Proof.
  unfold insert_position, row_not_null. intros H.
  destruct (vessel_positions d) as [rows|]; [|discriminate H].
  destruct (bind_params p) as [r|] eqn:Hr; [|discriminate H]. cbn [bind] in H.
  destruct (is_null (row_mmsi r)) eqn:H1; [discriminate H|].
  destruct (is_null (row_longitude r)) eqn:H2; [discriminate H|].
  destruct (is_null (row_latitude r)) eqn:H3; [discriminate H|].
  injection H as <-. exists r. simpl. repeat split; auto.
Qed.

Lemma insert_loop_inv (vessels : list json) (md : metadata_dict) (ts : string)
  (d d' : database) :
  insert_loop vessels md ts d = Ok d' ->
  exists rows,
    mapM (position_row_of md ts) vessels = Ok rows /\
    rows_of (vessel_positions d') = (rows_of (vessel_positions d) ++ rows)%list /\
    collection_summary d' = collection_summary d /\
    Forall row_not_null rows.
Proof.
  revert d. induction vessels as [|f rest IH]; intros d H; simpl in H.
  - injection H as <-. exists []. rewrite app_nil_r. auto.
  - inv_bind H. apply IH in H as (rows & Hrows & Hpos & Hsum & Hnn).
    apply insert_position_inv in E0 as (r & Hr & Hp & Hs & Hn).
    exists (r :: rows). simpl. unfold position_row_of at 1.
    rewrite E. cbn [bind]. rewrite Hr, Hrows. simpl.
    rewrite Hpos, Hp, Hsum, Hs. simpl. rewrite <- app_assoc. auto.
Qed.

Lemma insert_loop_ok (vessels : list json) (md : metadata_dict) (ts : string)
  (d : database) (old : list position_row) (rows : list position_row) :
  vessel_positions d = Some old ->
  mapM (position_row_of md ts) vessels = Ok rows ->
  Forall row_not_null rows ->
  insert_loop vessels md ts d =
  Ok {| vessel_positions := Some (old ++ rows)%list;
        collection_summary := collection_summary d |}.
Proof.
  revert d old rows.
  induction vessels as [|f rest IH]; intros d old rows Hd H Hnn.
  - simpl in H. injection H as <-. simpl. rewrite app_nil_r.
    destruct d; simpl in *. now subst.
  - simpl in H.
    destruct (position_row_of md ts f) as [a|] eqn:E; [|discriminate H].
    cbn [bind] in H.
    destruct (mapM (position_row_of md ts) rest) as [rs|] eqn:E0; [|discriminate H].
    cbn [bind] in H. injection H as <-.
    inversion Hnn as [|? ? Ha Hrest]; subst. destruct Ha as (H1 & H2 & H3).
    unfold position_row_of in E.
    destruct (position_params md ts f) as [p|] eqn:Ep; [|discriminate E].
    cbn [bind] in E.
    simpl. rewrite Ep. cbn [bind].
    unfold insert_position. rewrite Hd, E. cbn [bind]. rewrite H1, H2, H3. simpl.
    rewrite (IH _ (old ++ [a])%list rs); [|reflexivity|reflexivity|assumption].
    simpl. now rewrite <- app_assoc.
Qed.

Lemma save_to_database_inv (vessels : list json) (md : metadata_dict)
  (t : datetime) (ms : Z) (w w' : world) (r : res unit) :
  save_to_database vessels md t ms w = (r, w') ->
  match r with
  | Raise _ => w' = w
  | Ok _ =>
      exists rows,
        mapM (position_row_of md (isoformat t)) vessels = Ok rows /\
        rows_of (vessel_positions (db w')) =
          (rows_of (vessel_positions (db w)) ++ rows)%list /\
        rows_of (collection_summary (db w')) =
          (rows_of (collection_summary (db w)) ++
           [{| summary_timestamp := isoformat t;
               summary_vessel_count := List.length vessels;
               summary_collection_time_ms := ms |}])%list /\
        latest_json w' = latest_json w /\
        stdout w' = (stdout w ++ [PrintSaved (List.length vessels)])%list
  end.
Proof.
  unfold save_to_database. intros H.
  destruct (insert_loop vessels md (isoformat t) (db w)) as [d|x] eqn:E;
    cbn [bind] in H.
  - unfold insert_summary in H.
    apply insert_loop_inv in E as (rows & Hrows & Hpos & Hsum & _).
    destruct (collection_summary d) as [srows|] eqn:Hs.
    + unfold print in H. cbn in H. injection H as <- <-.
      exists rows. cbn. rewrite <- Hsum. repeat split; auto.
    + injection H as <- <-. reflexivity.
  - injection H as <- <-. reflexivity.
Qed.

Lemma export_latest_json_inv (vessels : list json) (md : metadata_dict)
  (t : datetime) (w w' : world) (r : res unit) :
  export_latest_json vessels md t w = (r, w') ->
  match r with
  | Raise _ => w' = w
  | Ok _ =>
      exists items,
        mapM (vessel_item md) vessels = Ok items /\
        latest_json w' = Document (snapshot_output items t) /\
        db w' = db w /\
        stdout w' = (stdout w ++ [PrintExported (List.length items)])%list
  end.
Proof.
  unfold export_latest_json. intros H.
  destruct (mapM (vessel_item md) vessels) as [items|x].
  - unfold print in H. cbn in H. injection H as <- <-.
    exists items. cbn. auto.
  - injection H as <- <-. reflexivity.
Qed.

(** ** A run that gets past the fetch *)

Lemma main_completed (e : env) (w w' : world) (data : json) :
  locations_reply e = Body data -> truthy data = true ->
  main e w = (Ok tt, w') ->
  exists vessels mmsi_list rows items,
    filter_vessels data = Ok vessels /\
    mapM feature_mmsi vessels = Ok mmsi_list /\
    mapM (position_row_of (lookup_of mmsi_list (vessels_reply e))
                          (isoformat (clock_start e))) vessels = Ok rows /\
    mapM (vessel_item (lookup_of mmsi_list (vessels_reply e))) vessels = Ok items /\
    rows_of (vessel_positions (db w')) =
      (rows_of (vessel_positions (db w)) ++ rows)%list /\
    rows_of (collection_summary (db w')) =
      (rows_of (collection_summary (db w)) ++
       [{| summary_timestamp := isoformat (clock_start e);
           summary_vessel_count := List.length vessels;
           summary_collection_time_ms := elapsed_ms e |}])%list /\
    latest_json w' = Document (snapshot_output items (clock_start e)).
Proof.
  intros Hreply Htruthy. run_main. rewrite Hreply. run_main.
  rewrite Htruthy. run_main.
  destruct (filter_vessels data) as [vessels|x] eqn:Hfilter; [|discriminate].
  destruct (mapM feature_mmsi vessels) as [mmsi_list|x] eqn:Hids; [|discriminate].
  match goal with
  | |- context [fetch_vessel_metadata mmsi_list (vessels_reply e) ?w0] =>
      destruct (fetch_vessel_metadata_returns mmsi_list (vessels_reply e) w0)
        as (out & -> & _)
  end.
  cbn [db latest_json stdout].
  match goal with
  | |- context [save_to_database ?v ?m ?t ?ms ?w0] =>
      destruct (save_to_database v m t ms w0) as [r1 w1] eqn:Hsave
  end.
  apply save_to_database_inv in Hsave.
  destruct r1 as [[]|x]; [|discriminate].
  destruct Hsave as (rows & Hrows & Hpos & Hsum & Hfile & _).
  cbn [db latest_json stdout vessel_positions collection_summary] in Hpos, Hsum, Hfile.
  rewrite rows_of_create_if_missing in Hpos.
  rewrite rows_of_create_if_missing in Hsum.
  destruct (export_latest_json vessels (lookup_of mmsi_list (vessels_reply e))
              (clock_start e) w1) as [r2 w2] eqn:Hexport.
  apply export_latest_json_inv in Hexport.
  destruct r2 as [[]|x]; [|discriminate].
  destruct Hexport as (items & Hitems & Hdoc & Hdb & _).
  intros H. injection H as <-. cbn [db latest_json stdout].
  exists vessels, mmsi_list, rows, items.
  rewrite Hdb. auto 10.
Qed.

Lemma position_row_of_timestamp (md : metadata_dict) (ts : string) (f : json)
  (row : position_row) :
  position_row_of md ts f = Ok row -> row_timestamp row = ts.
Proof.
  unfold position_row_of, position_params, bind_params. intros H.
  inv_bind H. now injection H as <-.
Qed.



(** C8.  In a run that exports a snapshot, the document parsed back from
    the file has a [vessel_count] equal to the number of rows the run
    stored, which is also the length of its [vessels] array. *)
Theorem snapshot_round_trip (e : env) (w w' : world) (data : json) :
  locations_reply e = Body data -> truthy data = true ->
  main e w = (Ok tt, w') ->
  exists rows doc items,
    rows_of (vessel_positions (db w')) =
      (rows_of (vessel_positions (db w)) ++ rows)%list /\
    parse_snapshot (latest_json w') = Some doc /\
    getitem doc "vessel_count" = Ok (JInt (Z.of_nat (List.length rows))) /\
    getitem doc "vessels" = Ok (JList items) /\
    List.length items = List.length rows.
Proof.
  intros Hreply Htruthy Hrun.
  destruct (main_completed e w w' data Hreply Htruthy Hrun)
    as (vessels & mmsi_list & rows & items &
        Hfilter & Hids & Hrows & Hitems & Hpos & _ & Hfile).
  exists rows, (snapshot_output items (clock_start e)), items.
  apply mapM_length in Hrows, Hitems.
  rewrite Hfile. repeat split; auto.
  - simpl. congruence.
  - congruence.
Qed.

(** C9.  The rows a run stores, its one summary row and its snapshot all
    carry the same timestamp string, the ISO form of the single clock
    reading taken at the start; and the vessel count of the summary row is
    the number of position rows stored. *)
Theorem run_timestamp (e : env) (w w' : world) (data : json) :
  locations_reply e = Body data -> truthy data = true ->
  main e w = (Ok tt, w') ->
  exists rows summary doc,
    rows_of (vessel_positions (db w')) =
      (rows_of (vessel_positions (db w)) ++ rows)%list /\
    rows_of (collection_summary (db w')) =
      (rows_of (collection_summary (db w)) ++ [summary])%list /\
    parse_snapshot (latest_json w') = Some doc /\
    Forall (fun r => row_timestamp r = isoformat (clock_start e)) rows /\
    summary_timestamp summary = isoformat (clock_start e) /\
    getitem doc "timestamp" = Ok (JStr (isoformat (clock_start e))) /\
    summary_vessel_count summary = List.length rows.
Proof.
  intros Hreply Htruthy Hrun.
  destruct (main_completed e w w' data Hreply Htruthy Hrun)
    as (vessels & mmsi_list & rows & items &
        Hfilter & Hids & Hrows & Hitems & Hpos & Hsum & Hfile).
  eexists rows, _, (snapshot_output items (clock_start e)).
  split; [exact Hpos|]. split; [exact Hsum|].
  rewrite Hfile. split; [reflexivity|]. split.
  - apply mapM_Forall2 in Hrows. clear - Hrows.
    induction Hrows; constructor; auto.
    eapply position_row_of_timestamp; eauto.
  - cbn. apply mapM_length in Hrows. auto.
Qed.

(** ** A run without metadata *)

Lemma small_number_binds (v : json) (x : pyfloat) :
  as_number v = Some x ->
  float_leb (FFin 0 0) x = true -> float_leb x (FFin (2 ^ 62) 0) = true ->
  exists s, sqlite_bind v = Ok s.
Proof.
  intros Hx Hlo Hhi. destruct v; try discriminate Hx; unfold sqlite_bind.
  - eauto.
  - injection Hx as <-. rewrite float_leb_int in Hlo, Hhi.
    apply Z.leb_le in Hlo, Hhi.
    assert (Hr : (- 2 ^ 63 <=? z) && (z <? 2 ^ 63) = true).
    { apply andb_true_iff. split; [apply Z.leb_le|apply Z.ltb_lt]; lia. }
    rewrite Hr. eauto.
  - destruct f; eauto.
Qed.

Lemma within_binds (vlon vlat : json) (lon lat : pyfloat) :
  as_number vlon = Some lon -> as_number vlat = Some lat ->
  withinb BBOX lon lat = true ->
  exists slon slat,
    sqlite_bind vlon = Ok slon /\ sqlite_bind vlat = Ok slat /\
    is_null slon = false /\ is_null slat = false.
Proof.
  intros Hx Hy Hw. unfold withinb in Hw.
  apply andb_true_iff in Hw as [Hw H4]. apply andb_true_iff in Hw as [Hw H3].
  apply andb_true_iff in Hw as [H1 H2].
  destruct (small_number_binds vlon lon Hx) as [slon Hlon].
  { eapply float_leb_trans; [|exact H1]. reflexivity. }
  { eapply float_leb_trans; [exact H2|]. reflexivity. }
  destruct (small_number_binds vlat lat Hy) as [slat Hlat].
  { eapply float_leb_trans; [|exact H3]. reflexivity. }
  { eapply float_leb_trans; [exact H4|]. reflexivity. }
  exists slon, slat. repeat split; auto.
  - pose proof (bound_number_not_null _ _ _ _ Hx H1 Hlon).
    destruct slon; simpl; congruence.
  - pose proof (bound_number_not_null _ _ _ _ Hy H3 Hlat).
    destruct slat; simpl; congruence.
Qed.

Lemma storable_binds (v : json) :
  storable v = true -> exists s, sqlite_bind v = Ok s.
Proof.
  unfold storable. destruct (sqlite_bind v); [eauto|discriminate].
Qed.

Lemma well_formed_properties_inv (f : json) :
  well_formed_properties f = true ->
  exists props mmsi s,
    getitem f "properties" = Ok (JDict props) /\
    dict_lookup "mmsi" props = Some mmsi /\
    hashable mmsi = true /\ sqlite_bind mmsi = Ok s /\ is_null s = false /\
    storable (prop_of props "sog") = true /\
    storable (prop_of props "cog") = true /\
    storable (prop_of props "heading") = true /\
    storable (prop_of props "navStat") = true /\
    storable (prop_of props "posAcc") = true.
Proof.
  unfold well_formed_properties. intros H.
  destruct (getitem f "properties") as [[| | | | | |props]|]; try discriminate H.
  apply andb_true_iff in H as [Hm Hs].
  destruct (dict_lookup "mmsi" props) as [mmsi|] eqn:Hk; [|discriminate Hm].
  apply andb_true_iff in Hm as [Hh Hb].
  destruct (sqlite_bind mmsi) as [s|] eqn:Hbind; [|discriminate Hb].
  apply negb_true_iff in Hb.
  cbn [forallb] in Hs. repeat rewrite andb_true_iff in Hs.
  exists props, mmsi, s. tauto.
Qed.

Lemma dict_get_prop (props : list (string * json)) (k : string) :
  dict_get (JDict props) k JNull = Ok (prop_of props k).
Proof. reflexivity. Qed.

Lemma position_row_of_plain (ts : string) (f : json) :
  feature_within BBOX f = true -> well_formed_properties f = true ->
  exists row,
    position_row_of [] ts f = Ok row /\ row_not_null row /\
    row_metadata_null row /\ sqlite_bind (identifier f) = Ok (row_mmsi row).
Proof.
  intros Hin Hwf. unfold feature_within in Hin.
  destruct (coordinate_pair f) as [[lon lat]|] eqn:Hp; [|discriminate Hin].
  destruct (coordinate_pair_inv _ _ _ Hp)
    as (g & c & vlon & vlat & Hg & Hc & H0 & H1 & Hx & Hy).
  destruct (within_binds _ _ _ _ Hx Hy Hin) as (slon & slat & Hlon & Hlat & Hn1 & Hn2).
  destruct (well_formed_properties_inv f Hwf)
    as (props & mmsi & s & Hprops & Hmmsi & Hh & Hs & Hn &
        Hsog & Hcog & Hhead & Hnav & Hacc).
  apply storable_binds in Hsog as [ssog Hsog], Hcog as [scog Hcog],
    Hhead as [shead Hhead], Hnav as [snav Hnav], Hacc as [sacc Hacc].
  assert (Hid : identifier f = mmsi).
  { unfold identifier. rewrite Hprops. simpl. now rewrite Hmmsi. }
  unfold position_row_of, position_params.
  rewrite Hprops, Hg. cbn [bind]. rewrite Hc. cbn [bind].
  rewrite !dict_get_prop. cbn [bind].
  assert (Hpm : prop_of props "mmsi" = mmsi) by (unfold prop_of; now rewrite Hmmsi).
  rewrite Hpm. unfold metadata_get. rewrite Hh. cbn [metadata_find bind].
  rewrite H0, H1. cbn [bind dict_get dict_lookup].
  unfold bind_params.
  cbn [p_timestamp p_mmsi p_name p_longitude p_latitude p_sog p_cog p_heading
       p_nav_stat p_ship_type p_destination p_eta p_draught p_pos_acc].
  rewrite Hs, Hlon, Hlat, Hsog, Hcog, Hhead, Hnav, Hacc. cbn [bind sqlite_bind].
  eexists. split; [reflexivity|]. rewrite Hid.
  unfold row_not_null, row_metadata_null. cbn. auto 10.
Qed.

Lemma vessel_item_plain (f : json) :
  feature_within BBOX f = true -> well_formed_properties f = true ->
  exists item,
    vessel_item [] f = Ok item /\ getitem item "mmsi" = Ok (identifier f) /\
    item_metadata_null item.
Proof.
  intros Hin Hwf. unfold feature_within in Hin.
  destruct (coordinate_pair f) as [[lon lat]|] eqn:Hp; [|discriminate Hin].
  destruct (coordinate_pair_inv _ _ _ Hp)
    as (g & c & vlon & vlat & Hg & Hc & H0 & H1 & Hx & Hy).
  destruct (well_formed_properties_inv f Hwf)
    as (props & mmsi & s & Hprops & Hmmsi & Hh & _).
  unfold vessel_item. rewrite Hprops, Hg. cbn [bind]. rewrite Hc. cbn [bind].
  rewrite !dict_get_prop. cbn [bind].
  assert (Hpm : prop_of props "mmsi" = mmsi) by (unfold prop_of; now rewrite Hmmsi).
  rewrite Hpm. unfold metadata_get. rewrite Hh. cbn [metadata_find bind].
  rewrite H0, H1. cbn [bind dict_get dict_lookup].
  assert (Hid : identifier f = mmsi).
  { unfold identifier. rewrite Hprops. simpl. now rewrite Hmmsi. }
  eexists. split; [reflexivity|]. rewrite Hid.
  unfold item_metadata_null. cbn. auto.
Qed.

Lemma feature_mmsi_well_formed (f : json) :
  well_formed_properties f = true -> exists k, feature_mmsi f = Ok k.
Proof.
  intros Hwf.
  destruct (well_formed_properties_inv f Hwf) as (props & mmsi & s & Hprops & Hmmsi & _).
  unfold feature_mmsi. rewrite Hprops. simpl. rewrite Hmmsi. eauto.
Qed.

Lemma create_if_missing_rows {A : Type} (t : option (list A)) :
  create_if_missing t = Some (rows_of t).
Proof. destruct t; reflexivity. Qed.

(** C3.  When the metadata fetch fails, a run over well-formed reports
    still completes: one row per filtered report is stored and one entry per
    report is exported, all with null metadata fields; the summary row is
    stored and the snapshot is written. *)
Theorem main_metadata_fetch_fails (e : env) (w : world) (data : json)
  (vessels : list json) :
  locations_reply e = Body data -> truthy data = true ->
  filter_vessels data = Ok vessels ->
  forallb well_formed_properties vessels = true ->
  fetch_failed (vessels_reply e) = true ->
  exists w' rows items,
    main e w = (Ok tt, w') /\
    rows_of (vessel_positions (db w')) =
      (rows_of (vessel_positions (db w)) ++ rows)%list /\
    Forall2 (fun f row =>
               sqlite_bind (identifier f) = Ok (row_mmsi row) /\
               row_metadata_null row) vessels rows /\
    rows_of (collection_summary (db w')) =
      (rows_of (collection_summary (db w)) ++
       [{| summary_timestamp := isoformat (clock_start e);
           summary_vessel_count := List.length vessels;
           summary_collection_time_ms := elapsed_ms e |}])%list /\
    parse_snapshot (latest_json w') =
      Some (snapshot_output items (clock_start e)) /\
    Forall2 (fun f item =>
               getitem item "mmsi" = Ok (identifier f) /\
               item_metadata_null item) vessels items.
Proof.
  intros Hreply Htruthy Hfilter Hwf Hfail.
  pose proof (filter_vessels_within _ _ Hfilter) as Hwithin.
  rewrite Forall_forall in Hwithin. rewrite forallb_forall in Hwf.
  set (ts := isoformat (clock_start e)).
  destruct (mapM_exists feature_mmsi (fun _ _ => True) vessels)
    as (mmsi_list & Hids & _).
  { intros f Hf. destruct (feature_mmsi_well_formed f (Hwf f Hf)) as [k Hk]. eauto. }
  destruct (mapM_exists (position_row_of [] ts)
              (fun f row => row_not_null row /\ row_metadata_null row /\
                            sqlite_bind (identifier f) = Ok (row_mmsi row)) vessels)
    as (rows & Hrows & Hrows').
  { intros f Hf. apply position_row_of_plain; auto. }
  destruct (mapM_exists (vessel_item [])
              (fun f item => getitem item "mmsi" = Ok (identifier f) /\
                             item_metadata_null item) vessels)
    as (items & Hitems & Hitems').
  { intros f Hf. apply vessel_item_plain; auto. }
  assert (Hnn : Forall row_not_null rows).
  { clear - Hrows'. induction Hrows'; constructor; tauto. }
  run_main. rewrite Hreply. run_main. rewrite Htruthy. run_main.
  rewrite Hfilter, Hids.
  match goal with
  | |- context [fetch_vessel_metadata mmsi_list (vessels_reply e) ?w0] =>
      destruct (fetch_vessel_metadata_returns mmsi_list (vessels_reply e) w0)
        as (out & -> & _)
  end.
  rewrite (fetch_failed_lookup _ _ Hfail).
  unfold save_to_database. cbn [db latest_json stdout].
  fold ts.
  erewrite insert_loop_ok;
    [|cbn [vessel_positions]; apply create_if_missing_rows|exact Hrows|exact Hnn].
  cbn [bind]. unfold insert_summary. cbn [collection_summary vessel_positions].
  rewrite create_if_missing_rows.
  run_main.
  unfold export_latest_json. rewrite Hitems.
  run_main.
  eexists. exists rows, items. split; [reflexivity|].
  cbn [db latest_json stdout vessel_positions collection_summary rows_of].
  repeat split; auto.
  - clear - Hrows'. induction Hrows'; constructor; tauto.
Qed.

(** ** A feature without coordinates *)

Lemma missing_coordinates_raises (f : json) :
  missing_coordinates f = true ->
  (g <- getitem f "geometry" ;; getitem g "coordinates") = Raise KeyError.
Proof.
  unfold missing_coordinates. intros H.
  destruct f as [| | | | | |fd]; try discriminate H. simpl.
  destruct (dict_lookup "geometry" fd) as [g|]; [|reflexivity].
  destruct g as [| | | | | |gd]; try discriminate H. simpl.
  destruct (dict_lookup "coordinates" gd); [discriminate H|reflexivity].
Qed.

Lemma filter_loop_missing_coordinates (features filtered : list json) :
  existsb missing_coordinates features = true ->
  exists x, filter_loop features filtered = Raise x.
Proof.
  revert filtered. induction features as [|f rest IH]; intros filtered H.
  - discriminate H.
  - simpl in H. simpl.
    destruct (missing_coordinates f) eqn:Hf.
    + apply missing_coordinates_raises in Hf.
      destruct (getitem f "geometry") as [g|x]; [|eexists; reflexivity]. cbn [bind] in Hf |- *.
      rewrite Hf. eexists; reflexivity.
    + simpl in H.
      destruct (getitem f "geometry") as [g|x]; [|eexists; reflexivity]. cbn [bind].
      destruct (getitem g "coordinates") as [c|x]; [|eexists; reflexivity]. cbn [bind].
      destruct (getindex c 0) as [lon|x]; [|eexists; reflexivity]. cbn [bind].
      destruct (getindex c 1) as [lat|x]; [|eexists; reflexivity]. cbn [bind].
      destruct (in_bbox lon lat) as [inside|x]; [|eexists; reflexivity]. cbn [bind].
      apply IH. exact H.
Qed.

(** C6, as the code has it.  A feature that lacks its geometry or the
    coordinates in it is not skipped: [filter_vessels] raises, the exception
    leaves [main], and the run ends after the line that announces the
    filtering, with the rows of both tables and the snapshot file as they
    were.  No line about skipped records is printed. *)
Theorem malformed_feature_aborts (e : env) (w : world) (d : list (string * json))
  (features : list json) :
  locations_reply e = Body (JDict d) ->
  dict_lookup "features" d = Some (JList features) ->
  existsb missing_coordinates features = true ->
  exists x w',
    filter_vessels (JDict d) = Raise x /\
    main e w = (Raise x, w') /\
    rows_of (vessel_positions (db w')) = rows_of (vessel_positions (db w)) /\
    rows_of (collection_summary (db w')) = rows_of (collection_summary (db w)) /\
    latest_json w' = latest_json w /\
    stdout w' =
      (stdout w ++
       [PrintRule; PrintStarted; PrintRule;
        PrintCollectionTime (isoformat (clock_start e));
        PrintDatabaseInitialized; PrintFetching; PrintFiltering])%list.
Proof.
  intros Hreply Hd Hbad.
  destruct (filter_loop_missing_coordinates features [] Hbad) as [x Hx].
  assert (Hfilter : filter_vessels (JDict d) = Raise x).
  { rewrite (filter_vessels_features _ _ Hd). exact Hx. }
  assert (Htruthy : truthy (JDict d) = true).
  { destruct d; [discriminate Hd|reflexivity]. }
  exists x. eexists. split; [exact Hfilter|].
  run_main. rewrite Hreply. run_main. rewrite Htruthy. run_main.
  rewrite Hfilter. split; [reflexivity|].
  cbn [db latest_json stdout vessel_positions collection_summary].
  rewrite !rows_of_create_if_missing. repeat split.
  repeat rewrite <- app_assoc. reflexivity.
Qed.

(** ** Writing the snapshot *)

(** C7, as the code has it.  The exporter writes the snapshot in place:
    opening the path for writing cuts the file to nothing, so between the
    opening and the end of the dump the path holds no whole document; the
    new document is there only once the dump is over.  No temporary file
    and no rename are involved. *)
Theorem export_overwrites_in_place (vessels : list json) (vessel_metadata : metadata_dict)
  (timestamp : datetime) (w : world) (vessel_list : list json) :
  mapM (vessel_item vessel_metadata) vessels = Ok vessel_list ->
  export_file_states vessels vessel_metadata timestamp w =
    [Truncated; Document (snapshot_output vessel_list timestamp)] /\
  parse_snapshot Truncated = None /\
  exists w',
    export_latest_json vessels vessel_metadata timestamp w = (Ok tt, w') /\
    latest_json w' = Document (snapshot_output vessel_list timestamp) /\
    db w' = db w.
Proof.
  intros H. unfold export_file_states, export_latest_json. rewrite H.
  split; [reflexivity|]. split; [reflexivity|].
  eexists. split; [reflexivity|]. split; reflexivity.
Qed.

(** ** The properties on the sample data *)

Lemma main_position_fetch_fails_witness :
  exists w',
    main no_positions_env later_world = (Ok tt, w') /\
    rows_of (vessel_positions (db w')) = rows_of (vessel_positions (db later_world)) /\
    rows_of (collection_summary (db w')) = rows_of (collection_summary (db later_world)) /\
    latest_json w' = latest_json later_world /\
    In PrintFailed (stdout w').
Proof.
  apply (main_position_fetch_fails no_positions_env later_world).
  reflexivity.
Defined.

Lemma main_metadata_fetch_fails_witness :
  exists w' rows items,
    main no_metadata_env fresh_world = (Ok tt, w') /\
    rows_of (vessel_positions (db w')) =
      (rows_of (vessel_positions (db fresh_world)) ++ rows)%list /\
    Forall2 (fun f row =>
               sqlite_bind (identifier f) = Ok (row_mmsi row) /\
               row_metadata_null row) sample_filtered rows /\
    rows_of (collection_summary (db w')) =
      (rows_of (collection_summary (db fresh_world)) ++
       [{| summary_timestamp := isoformat (clock_start no_metadata_env);
           summary_vessel_count := List.length sample_filtered;
           summary_collection_time_ms := elapsed_ms no_metadata_env |}])%list /\
    parse_snapshot (latest_json w') =
      Some (snapshot_output items (clock_start no_metadata_env)) /\
    Forall2 (fun f item =>
               getitem item "mmsi" = Ok (identifier f) /\
               item_metadata_null item) sample_filtered items.
Proof.
  apply (main_metadata_fetch_fails no_metadata_env fresh_world
           (JDict scenario) sample_filtered); reflexivity.
Defined.

Lemma metadata_lookup_restricted_witness :
  exists metadata w',
    fetch_vessel_metadata [JInt 230000001; JInt 230000003] (Body sample_vessels)
      fresh_world = (Ok metadata, w') /\
    (forall k, In k (map fst metadata) ->
       exists f, In f sample_filtered /\ py_same (identifier f) k = true) /\
    (List.length metadata <=
     List.length (distinct [JInt 230000001; JInt 230000003]))%nat.
Proof.
  apply (metadata_lookup_restricted sample_filtered
           [JInt 230000001; JInt 230000003] (Body sample_vessels) fresh_world).
  reflexivity.
Defined.


Lemma snapshot_round_trip_witness :
  exists rows doc items,
    rows_of (vessel_positions (db sample_result)) =
      (rows_of (vessel_positions (db fresh_world)) ++ rows)%list /\
    parse_snapshot (latest_json sample_result) = Some doc /\
    getitem doc "vessel_count" = Ok (JInt (Z.of_nat (List.length rows))) /\
    getitem doc "vessels" = Ok (JList items) /\
    List.length items = List.length rows.
Proof.
  apply (snapshot_round_trip sample_env fresh_world sample_result (JDict scenario));
    reflexivity.
Defined.

Lemma run_timestamp_witness :
  exists rows summary doc,
    rows_of (vessel_positions (db sample_result)) =
      (rows_of (vessel_positions (db fresh_world)) ++ rows)%list /\
    rows_of (collection_summary (db sample_result)) =
      (rows_of (collection_summary (db fresh_world)) ++ [summary])%list /\
    parse_snapshot (latest_json sample_result) = Some doc /\
    Forall (fun r => row_timestamp r = isoformat (clock_start sample_env)) rows /\
    summary_timestamp summary = isoformat (clock_start sample_env) /\
    getitem doc "timestamp" = Ok (JStr (isoformat (clock_start sample_env))) /\
    summary_vessel_count summary = List.length rows.
Proof.
  apply (run_timestamp sample_env fresh_world sample_result (JDict scenario));
    reflexivity.
Defined.

(** The sample collection with a report that lacks its geometry: the
    filter does not return, and neither does the run. *)
Lemma malformed_feature_not_skipped :
  filter_vessels (JDict malformed_collection) = Raise KeyError /\
  ~ (exists filtered, filter_vessels (JDict malformed_collection) = Ok filtered) /\
  fst (main malformed_env fresh_world) = Raise KeyError /\
  ~ In (PrintFound 1) (stdout (snd (main malformed_env fresh_world))).
Proof.
  split; [reflexivity|]. split.
  - intros [filtered H]. discriminate H.
  - split; [reflexivity|].
    cbv. intros H. repeat (destruct H as [H|H]; [discriminate H|]). exact H.
Qed.

Lemma malformed_feature_aborts_witness :
  exists x w',
    filter_vessels (JDict malformed_collection) = Raise x /\
    main malformed_env later_world = (Raise x, w') /\
    rows_of (vessel_positions (db w')) = rows_of (vessel_positions (db later_world)) /\
    rows_of (collection_summary (db w')) = rows_of (collection_summary (db later_world)) /\
    latest_json w' = latest_json later_world /\
    stdout w' =
      (stdout later_world ++
       [PrintRule; PrintStarted; PrintRule;
        PrintCollectionTime (isoformat (clock_start malformed_env));
        PrintDatabaseInitialized; PrintFetching; PrintFiltering])%list.
Proof.
  apply (malformed_feature_aborts malformed_env later_world malformed_collection
           [malformed_report; report 230000001 (JInt 20) (JInt 60)]);
    reflexivity.
Defined.

(** While the sample snapshot is written over the earlier one, the path
    holds at one point neither of the two documents, and nothing a reader
    could parse. *)
Lemma snapshot_write_not_atomic :
  exists f,
    In f (export_file_states sample_filtered [] sample_time later_world) /\
    f <> latest_json later_world /\
    f <> latest_json (snd (export_latest_json sample_filtered [] sample_time later_world)) /\
    parse_snapshot f = None.
Proof.
  exists Truncated. split; [left; reflexivity|].
  split; [discriminate|]. split; [discriminate|reflexivity].
Qed.

Lemma export_overwrites_in_place_witness :
  export_file_states sample_filtered [] sample_time later_world =
    [Truncated; Document (snapshot_output (map (fun f =>
        match vessel_item [] f with Ok item => item | Raise _ => JNull end)
        sample_filtered) sample_time)] /\
  parse_snapshot Truncated = None /\
  exists w',
    export_latest_json sample_filtered [] sample_time later_world = (Ok tt, w') /\
    latest_json w' = Document (snapshot_output (map (fun f =>
        match vessel_item [] f with Ok item => item | Raise _ => JNull end)
        sample_filtered) sample_time) /\
    db w' = db later_world.
Proof.
  apply (export_overwrites_in_place sample_filtered [] sample_time later_world).
  reflexivity.
Defined.

(** ** More on the geographic filter *)

(** One turn of the loop that does not raise has decided exactly whether
    the feature carries a coordinate pair inside the box. *)
Lemma in_bbox_decides (f g c vlon vlat : json) (inside : bool) :
  getitem f "geometry" = Ok g -> getitem g "coordinates" = Ok c ->
  getindex c 0 = Ok vlon -> getindex c 1 = Ok vlat ->
  in_bbox vlon vlat = Ok inside ->
  feature_within BBOX f = inside.
Proof.
  intros Hg Hc H0 H1 Hin.
  destruct (as_number vlon) as [lon|] eqn:Hx.
  2:{ unfold in_bbox, float_le_value in Hin. rewrite Hx in Hin. discriminate Hin. }
  destruct (number_at_index _ _ _ _ H0 Hx) as (cs & -> & Hn0).
  unfold getindex in H1. destruct (nth_error cs 1) as [y|] eqn:Hn1; [|discriminate H1].
  injection H1 as ->.
  destruct cs as [|c0 [|c1 cs]]; try discriminate.
  simpl in Hn0, Hn1. injection Hn0 as ->. injection Hn1 as ->.
  destruct (getitem_dict _ _ _ Hg) as (fd & -> & Hfg).
  destruct (getitem_dict _ _ _ Hc) as (gd & -> & Hgc).
  unfold feature_within, coordinate_pair. rewrite Hfg, Hgc, Hx.
  destruct (as_number vlat) as [lat|] eqn:Hy.
  - rewrite (in_bbox_numbers _ _ _ _ Hx Hy) in Hin. now injection Hin.
  - unfold in_bbox, float_le_value, value_le_float in Hin.
    rewrite Hx, Hy in Hin. cbn [bind] in Hin.
    destruct (float_leb (min_lon BBOX) lon); cbn [negb bind] in Hin;
      [|now injection Hin].
    destruct (float_leb lon (max_lon BBOX)); cbn [negb bind] in Hin;
      [discriminate Hin|now injection Hin].
Qed.

Lemma filter_loop_exact (features filtered out : list json) :
  filter_loop features filtered = Ok out ->
  out = (filtered ++ filter (feature_within BBOX) features)%list.
Proof.
  revert filtered.
  induction features as [|f rest IH]; intros filtered H; simpl in H.
  - injection H as <-. now rewrite app_nil_r.
  - inv_bind H. apply IH in H. subst out. simpl.
    rewrite (in_bbox_decides _ _ _ _ _ _ E E0 E1 E2 E3).
    destruct a3; [|reflexivity]. now rewrite <- app_assoc.
Qed.

(** X1.  Whenever [filter_vessels] returns on a collection with a list of
    features, with or without malformed ones among those it let pass, the
    result is exactly the features that carry a coordinate pair inside the
    box, in their order. *)
Theorem filter_vessels_exact (d : list (string * json)) (features filtered : list json) :
  dict_lookup "features" d = Some (JList features) ->
  filter_vessels (JDict d) = Ok filtered ->
  filtered = filter (feature_within BBOX) features.
Proof.
  intros Hd H. rewrite (filter_vessels_features _ _ Hd) in H. simpl in H.
  now apply filter_loop_exact in H.
Qed.

Lemma filter_vessels_exact_witness :
  [report 230000001 (JInt 20) (JInt 60)] =
  filter (feature_within BBOX) [west_report; report 230000001 (JInt 20) (JInt 60)].
Proof.
  apply (filter_vessels_exact
           [("features", JList [west_report; report 230000001 (JInt 20) (JInt 60)])]);
    reflexivity.
Defined.

Lemma within_has_coordinates (l : list json) :
  Forall (fun f => feature_within BBOX f = true) l ->
  forallb has_coordinates l = true /\ filter (feature_within BBOX) l = l.
Proof.
  induction 1 as [|f l Hf _ [IH1 IH2]]; [split; reflexivity|].
  simpl. rewrite Hf, IH1, IH2. split; [|reflexivity].
  unfold has_coordinates. unfold feature_within in Hf.
  destruct (coordinate_pair f); [reflexivity|discriminate Hf].
Qed.

(** X2.  Filtering is idempotent: the features [filter_vessels] returned,
    put back into a collection, all pass the filter again, in the same
    order. *)
Theorem filter_vessels_idempotent (data : json) (filtered : list json) :
  filter_vessels data = Ok filtered ->
  filter_vessels (collection_of (JList filtered)) = Ok filtered.
Proof.
  intros H. apply filter_vessels_within in H.
  destruct (within_has_coordinates _ H) as [Hwf Hall].
  unfold collection_of.
  rewrite (filter_vessels_features _ (JList filtered)) by reflexivity.
  simpl. rewrite filter_loop_well_formed by assumption.
  now rewrite Hall.
Qed.

Lemma filter_vessels_idempotent_witness :
  filter_vessels (collection_of (JList sample_filtered)) = Ok sample_filtered.
Proof.
  apply (filter_vessels_idempotent (JDict scenario)). reflexivity.
Defined.

(** X3.  The longitude is tested first.  A feature whose longitude is a
    number outside the range is dropped without its latitude being compared,
    whatever the latitude is; with the longitude in range, a latitude that
    is not a number raises [TypeError]. *)
Theorem filter_vessels_longitude_first (f g c vlon vlat : json) (lon : pyfloat)
  (rest : list json) :
  getitem f "geometry" = Ok g -> getitem g "coordinates" = Ok c ->
  getindex c 0 = Ok vlon -> getindex c 1 = Ok vlat ->
  as_number vlon = Some lon ->
  (float_leb (min_lon BBOX) lon && float_leb lon (max_lon BBOX) = false ->
   filter_vessels (collection_of (JList (f :: rest))) =
   filter_vessels (collection_of (JList rest))) /\
  (float_leb (min_lon BBOX) lon && float_leb lon (max_lon BBOX) = true ->
   as_number vlat = None ->
   filter_vessels (collection_of (JList (f :: rest))) = Raise TypeError).
Proof.
  intros Hg Hc H0 H1 Hx. unfold collection_of.
  rewrite (filter_vessels_features _ (JList (f :: rest))) by reflexivity.
  rewrite (filter_vessels_features _ (JList rest)) by reflexivity.
  simpl. rewrite Hg. cbn [bind]. rewrite Hc. cbn [bind].
  rewrite H0, H1. cbn [bind].
  unfold in_bbox, float_le_value, value_le_float. rewrite Hx. cbn [bind].
  split.
  - intros Hout. apply andb_false_iff in Hout as [Hout|Hout].
    + change (float_leb (min_lon BBOX) lon = false) in Hout.
      rewrite Hout. reflexivity.
    + change (float_leb lon (max_lon BBOX) = false) in Hout.
      destruct (float_leb (min_lon BBOX) lon); [|reflexivity].
      cbn [negb bind]. rewrite Hout. reflexivity.
  - intros Hin Hy. apply andb_true_iff in Hin as [Ha Hb].
    change (float_leb (min_lon BBOX) lon = true) in Ha.
    change (float_leb lon (max_lon BBOX) = true) in Hb.
    rewrite Ha. cbn [negb bind]. rewrite Hb. cbn [negb]. rewrite Hy. reflexivity.
Qed.

Lemma filter_vessels_longitude_first_witness :
  filter_vessels (collection_of (JList (west_report :: scenario_features))) =
  filter_vessels (collection_of (JList scenario_features)) /\
  filter_vessels (collection_of (JList (east_report :: scenario_features))) =
  Raise TypeError.
Proof.
  split.
  - apply (filter_vessels_longitude_first west_report
             (JDict [("coordinates", JList [JInt 10; JNull])])
             (JList [JInt 10; JNull]) (JInt 10) JNull (FFin 10 0) scenario_features);
      reflexivity.
  - apply (filter_vessels_longitude_first east_report
             (JDict [("coordinates", JList [JInt 20; JNull])])
             (JList [JInt 20; JNull]) (JInt 20) JNull (FFin 20 0) scenario_features);
      reflexivity.
Defined.

(** X4.  When ['features'] holds something other than a list, the filter
    returns the empty list for an empty dict or an empty string and raises
    [TypeError] for anything else: a value that cannot be iterated, or one
    whose items are strings. *)
Theorem filter_vessels_features_not_a_list (d : list (string * json)) (v : json) :
  dict_lookup "features" d = Some v ->
  (forall l, v <> JList l) ->
  filter_vessels (JDict d) =
  match v with
  | JDict [] | JStr EmptyString => Ok []
  | _ => Raise TypeError
  end.
Proof.
  intros Hd Hv. rewrite (filter_vessels_features _ _ Hd).
  destruct v as [| | | |s|l|fd]; try reflexivity.
  - destruct s; reflexivity.
  - exfalso. now apply (Hv l).
  - destruct fd as [|[k x] fd]; reflexivity.
Qed.

Lemma filter_vessels_features_not_a_list_witness :
  filter_vessels (JDict [("type", JStr "FeatureCollection"); ("features", JNull)]) =
  Raise TypeError.
Proof.
  apply (filter_vessels_features_not_a_list
           [("type", JStr "FeatureCollection"); ("features", JNull)] JNull).
  - reflexivity.
  - discriminate.
Defined.

(** ** Store and snapshot of one run *)

Lemma vessel_item_of_params (md : metadata_dict) (ts : string) (f : json)
  (p : insert_params) :
  position_params md ts f = Ok p -> vessel_item md f = Ok (item_of_params p).
Proof.
  unfold position_params, vessel_item. intros H.
  inv_bind H. injection H as <-.
  repeat (cbn [bind];
          match goal with
          | Hx : ?t = Ok _ |- context [bind ?t _] => rewrite Hx
          end).
  reflexivity.
Qed.

Lemma position_row_of_params (md : metadata_dict) (ts : string) (f : json)
  (row : position_row) :
  position_row_of md ts f = Ok row ->
  exists p, position_params md ts f = Ok p /\ bind_params p = Ok row.
Proof.
  unfold position_row_of. intros H.
  destruct (position_params md ts f) as [p|]; [|discriminate H]. eauto.
Qed.

Lemma vessel_items_of_rows (md : metadata_dict) (ts : string) (vessels : list json)
  (rows : list position_row) :
  mapM (position_row_of md ts) vessels = Ok rows ->
  exists params,
    mapM (position_params md ts) vessels = Ok params /\
    mapM (vessel_item md) vessels = Ok (map item_of_params params).
Proof.
  revert rows. induction vessels as [|f rest IH]; intros rows H; simpl in H.
  - exists []. split; reflexivity.
  - destruct (position_row_of md ts f) as [row|] eqn:Hrow; [|discriminate H].
    cbn [bind] in H.
    destruct (mapM (position_row_of md ts) rest) as [rs|]; [|discriminate H].
    destruct (IH rs eq_refl) as (params & Hparams & Hitems).
    destruct (position_row_of_params _ _ _ _ Hrow) as (p & Hp & _).
    exists (p :: params). simpl.
    rewrite Hp, Hparams, (vessel_item_of_params _ _ _ _ Hp), Hitems.
    split; reflexivity.
Qed.

(** X5.  Once [save_to_database] has returned, the loop of
    [export_latest_json] that builds the snapshot entries cannot raise on the
    same features and lookup, and each entry holds, field by field, the
    values that were passed as the parameters of that feature's INSERT.
    Whether the file can then be written is another matter. *)
Theorem snapshot_entries_after_save (vessels : list json) (md : metadata_dict)
  (t : datetime) (ms : Z) (w w1 : world) :
  save_to_database vessels md t ms w = (Ok tt, w1) ->
  exists params,
    mapM (position_params md (isoformat t)) vessels = Ok params /\
    mapM (vessel_item md) vessels = Ok (map item_of_params params).
Proof.
  intros H. apply save_to_database_inv in H as (rows & Hrows & _).
  exact (vessel_items_of_rows _ _ _ _ Hrows).
Qed.

Lemma snapshot_entries_after_save_witness :
  exists params,
    mapM (position_params [] (isoformat sample_time)) sample_filtered = Ok params /\
    mapM (vessel_item []) sample_filtered = Ok (map item_of_params params).
Proof.
  apply (snapshot_entries_after_save sample_filtered [] sample_time 7
           later_world
           (snd (save_to_database sample_filtered [] sample_time 7 later_world))).
  reflexivity.
Defined.

(** X6.  The rows [save_to_database] stores, for any features at all,
    have a vessel identifier, a longitude and a latitude that are not NULL,
    and there is one row per feature, each with the timestamp of the
    call. *)
Theorem save_to_database_not_null (vessels : list json) (md : metadata_dict)
  (t : datetime) (ms : Z) (w w' : world) :
  save_to_database vessels md t ms w = (Ok tt, w') ->
  exists rows,
    rows_of (vessel_positions (db w')) =
      (rows_of (vessel_positions (db w)) ++ rows)%list /\
    List.length rows = List.length vessels /\
    Forall (fun r => row_mmsi r <> SqlNull /\ row_longitude r <> SqlNull /\
                     row_latitude r <> SqlNull /\
                     row_timestamp r = isoformat t) rows.
Proof.
  unfold save_to_database. intros H.
  destruct (insert_loop vessels md (isoformat t) (db w)) as [d|x] eqn:E;
    cbn [bind] in H; [|discriminate H].
  apply insert_loop_inv in E as (rows & Hrows & Hpos & Hsum & Hnn).
  unfold insert_summary in H.
  destruct (collection_summary d); [|discriminate H].
  unfold print in H. cbn in H. injection H as <-. cbn.
  exists rows. split; [exact Hpos|]. split; [now apply mapM_length in Hrows|].
  apply mapM_Forall2 in Hrows. clear - Hrows Hnn.
  induction Hrows as [|f r fs rs Hr _ IH]; [constructor|].
  inversion Hnn as [|? ? (H1 & H2 & H3) Hrest]; subst.
  constructor; [|auto].
  repeat split.
  - intros E. rewrite E in H1. discriminate H1.
  - intros E. rewrite E in H2. discriminate H2.
  - intros E. rewrite E in H3. discriminate H3.
  - eapply position_row_of_timestamp; eauto.
Qed.

Lemma save_to_database_not_null_witness :
  exists rows,
    rows_of (vessel_positions
               (db (snd (save_to_database scenario_features [] sample_time 7
                           later_world)))) =
      (rows_of (vessel_positions (db later_world)) ++ rows)%list /\
    List.length rows = List.length scenario_features /\
    Forall (fun r => row_mmsi r <> SqlNull /\ row_longitude r <> SqlNull /\
                     row_latitude r <> SqlNull /\
                     row_timestamp r = isoformat sample_time) rows.
Proof.
  apply (save_to_database_not_null scenario_features [] sample_time 7 later_world).
  reflexivity.
Defined.

(** ** Every outcome of a run *)

(** Closes the case of a run that ended without storing anything. *)
Ltac nothing_added :=
  let H := fresh "H" in
  intros H; injection H as <- <-; exists [], [];
  cbn [db latest_json vessel_positions collection_summary];
  rewrite !rows_of_create_if_missing, !app_nil_r; simpl; auto 10.

(** X7.  The store only grows, and a run that returns has done all or
    nothing.  Whatever a run does, the rows that were in the two tables stay,
    in place, and at most one summary row is added.  A run that returns
    normally has either added no row and left the snapshot file alone, or
    added its position rows, one summary row that counts them, and written a
    snapshot with as many entries. *)
Theorem main_append_only (e : env) (w w' : world) (r : res unit) :
  main e w = (r, w') ->
  exists rows summaries,
    rows_of (vessel_positions (db w')) =
      (rows_of (vessel_positions (db w)) ++ rows)%list /\
    rows_of (collection_summary (db w')) =
      (rows_of (collection_summary (db w)) ++ summaries)%list /\
    (List.length summaries <= 1)%nat /\
    match r with
    | Raise _ => True
    | Ok _ =>
        (rows = [] /\ summaries = [] /\ latest_json w' = latest_json w) \/
        (exists s items,
           summaries = [s] /\ summary_vessel_count s = List.length rows /\
           latest_json w' = Document (snapshot_output items (clock_start e)) /\
           List.length items = List.length rows)
    end.
Proof.
  run_main.
  destruct (locations_reply e) as [| | |data]; try (run_main; nothing_added).
  run_main. destruct (truthy data); run_main.
  2:{ nothing_added. }
  destruct (filter_vessels data) as [vessels|x].
  2:{ nothing_added. }
  destruct (mapM feature_mmsi vessels) as [mmsi_list|x].
  2:{ nothing_added. }
  match goal with
  | |- context [fetch_vessel_metadata mmsi_list (vessels_reply e) ?w0] =>
      destruct (fetch_vessel_metadata_returns mmsi_list (vessels_reply e) w0)
        as (out & -> & _)
  end.
  cbn [db latest_json stdout].
  match goal with
  | |- context [save_to_database ?v ?m ?t ?ms ?w0] =>
      destruct (save_to_database v m t ms w0) as [r1 w1] eqn:Hsave
  end.
  pose proof (save_to_database_inv _ _ _ _ _ _ _ Hsave) as Hinv.
  destruct r1 as [[]|x].
  2:{ subst w1. nothing_added. }
  destruct Hinv as (rows & Hrows & Hpos & Hsum & Hfile & _).
  cbn [db latest_json stdout vessel_positions collection_summary] in Hpos, Hsum, Hfile.
  rewrite rows_of_create_if_missing in Hpos.
  rewrite rows_of_create_if_missing in Hsum.
  match goal with
  | |- context [export_latest_json ?v ?m ?t w1] =>
      destruct (export_latest_json v m t w1) as [r2 w2] eqn:Hexport
  end.
  apply export_latest_json_inv in Hexport.
  destruct r2 as [[]|x].
  - destruct Hexport as (items & Hitems & Hdoc & Hdb & _).
    intros H; injection H as <- <-. cbn [db latest_json]. rewrite Hdb.
    eexists rows, [_]. split; [exact Hpos|]. split; [exact Hsum|].
    split; [simpl; lia|]. right. eexists _, items.
    split; [reflexivity|]. cbn.
    apply mapM_length in Hrows, Hitems. repeat split; congruence.
  - subst w2. intros H; injection H as <- <-.
    eexists rows, [_]. split; [exact Hpos|]. split; [exact Hsum|].
    split; [simpl; lia|exact I].
Qed.

Lemma main_append_only_witness :
  exists rows summaries,
    rows_of (vessel_positions (db sample_result)) =
      (rows_of (vessel_positions (db fresh_world)) ++ rows)%list /\
    rows_of (collection_summary (db sample_result)) =
      (rows_of (collection_summary (db fresh_world)) ++ summaries)%list /\
    (List.length summaries <= 1)%nat /\
    ((rows = [] /\ summaries = [] /\ latest_json sample_result = latest_json fresh_world) \/
     (exists s items,
        summaries = [s] /\ summary_vessel_count s = List.length rows /\
        latest_json sample_result =
          Document (snapshot_output items (clock_start sample_env)) /\
        List.length items = List.length rows)).
Proof.
  apply (main_append_only sample_env fresh_world sample_result (Ok tt)).
  reflexivity.
Defined.

(** X9.  A reply that decodes to a falsy value (an empty object or list,
    zero, [null], [false], an empty string) is taken for a failed fetch:
    the run prints the failure line, without the error line of
    [fetch_ais_data], and returns with store and snapshot as they were. *)
Theorem main_falsy_payload (e : env) (w : world) (data : json) :
  locations_reply e = Body data -> truthy data = false ->
  exists w',
    main e w = (Ok tt, w') /\
    rows_of (vessel_positions (db w')) = rows_of (vessel_positions (db w)) /\
    rows_of (collection_summary (db w')) = rows_of (collection_summary (db w)) /\
    latest_json w' = latest_json w /\
    stdout w' =
      (stdout w ++
       [PrintRule; PrintStarted; PrintRule;
        PrintCollectionTime (isoformat (clock_start e));
        PrintDatabaseInitialized; PrintFetching; PrintFailed])%list.
Proof.
  intros Hreply Hfalsy. run_main. rewrite Hreply. run_main.
  rewrite Hfalsy. run_main.
  eexists. split; [reflexivity|].
  cbn [db latest_json stdout vessel_positions collection_summary].
  rewrite !rows_of_create_if_missing. repeat split.
  repeat rewrite <- app_assoc. reflexivity.
Qed.

Lemma main_falsy_payload_witness :
  exists w',
    main empty_payload_env later_world = (Ok tt, w') /\
    rows_of (vessel_positions (db w')) = rows_of (vessel_positions (db later_world)) /\
    rows_of (collection_summary (db w')) =
      rows_of (collection_summary (db later_world)) /\
    latest_json w' = latest_json later_world /\
    stdout w' =
      (stdout later_world ++
       [PrintRule; PrintStarted; PrintRule;
        PrintCollectionTime (isoformat (clock_start empty_payload_env));
        PrintDatabaseInitialized; PrintFetching; PrintFailed])%list.
Proof.
  apply (main_falsy_payload empty_payload_env later_world (JDict []));
    reflexivity.
Defined.

(** X10.  A run whose filter keeps nothing still completes: it stores no
    position row, stores a summary row that counts zero vessels, and
    replaces the snapshot by one with no vessels, whatever the metadata
    reply is. *)
Theorem main_nothing_in_region (e : env) (w : world) (data : json) :
  locations_reply e = Body data -> truthy data = true ->
  filter_vessels data = Ok [] ->
  exists w',
    main e w = (Ok tt, w') /\
    rows_of (vessel_positions (db w')) = rows_of (vessel_positions (db w)) /\
    rows_of (collection_summary (db w')) =
      (rows_of (collection_summary (db w)) ++
       [{| summary_timestamp := isoformat (clock_start e);
           summary_vessel_count := 0;
           summary_collection_time_ms := elapsed_ms e |}])%list /\
    latest_json w' = Document (snapshot_output [] (clock_start e)).
Proof.
  intros Hreply Htruthy Hfilter.
  run_main. rewrite Hreply. run_main. rewrite Htruthy. run_main.
  rewrite Hfilter. cbn [mapM].
  match goal with
  | |- context [fetch_vessel_metadata [] (vessels_reply e) ?w0] =>
      destruct (fetch_vessel_metadata_returns [] (vessels_reply e) w0)
        as (out & -> & _)
  end.
  unfold save_to_database, export_latest_json.
  cbn [db latest_json stdout insert_loop bind mapM].
  unfold insert_summary. cbn [collection_summary vessel_positions].
  rewrite create_if_missing_rows. run_main.
  eexists. split; [reflexivity|].
  cbn [db latest_json stdout vessel_positions collection_summary rows_of].
  rewrite rows_of_create_if_missing. auto.
Qed.

Lemma main_nothing_in_region_witness :
  exists w',
    main outside_env sample_result = (Ok tt, w') /\
    rows_of (vessel_positions (db w')) = rows_of (vessel_positions (db sample_result)) /\
    rows_of (collection_summary (db w')) =
      (rows_of (collection_summary (db sample_result)) ++
       [{| summary_timestamp := isoformat (clock_start outside_env);
           summary_vessel_count := 0;
           summary_collection_time_ms := elapsed_ms outside_env |}])%list /\
    latest_json w' = Document (snapshot_output [] (clock_start outside_env)).
Proof.
  apply (main_nothing_in_region outside_env sample_result
           (collection_of (JList [report 230000002 (JInt 10) (JInt 60)])));
    reflexivity.
Defined.

(** X11.  Runs accumulate in the store and replace one another in the
    snapshot.  After two runs that get past the fetch, the position table
    holds the earlier rows, then the rows of the first run, then those of
    the second, each stamped with the start of its own run; the summary
    table has gained one row per run; and the snapshot is that of the
    second run alone. *)
Theorem main_twice (e1 e2 : env) (w w1 w2 : world) (d1 d2 : json) :
  locations_reply e1 = Body d1 -> truthy d1 = true ->
  main e1 w = (Ok tt, w1) ->
  locations_reply e2 = Body d2 -> truthy d2 = true ->
  main e2 w1 = (Ok tt, w2) ->
  exists rows1 rows2 s1 s2 items2,
    rows_of (vessel_positions (db w2)) =
      (rows_of (vessel_positions (db w)) ++ rows1 ++ rows2)%list /\
    Forall (fun r => row_timestamp r = isoformat (clock_start e1)) rows1 /\
    Forall (fun r => row_timestamp r = isoformat (clock_start e2)) rows2 /\
    rows_of (collection_summary (db w2)) =
      (rows_of (collection_summary (db w)) ++ [s1; s2])%list /\
    summary_vessel_count s1 = List.length rows1 /\
    summary_vessel_count s2 = List.length rows2 /\
    latest_json w2 = Document (snapshot_output items2 (clock_start e2)) /\
    List.length items2 = List.length rows2.
Proof.
  intros Hr1 Ht1 Hrun1 Hr2 Ht2 Hrun2.
  destruct (main_completed e1 w w1 d1 Hr1 Ht1 Hrun1)
    as (v1 & m1 & rows1 & items1 & _ & _ & Hrows1 & _ & Hpos1 & Hsum1 & _).
  destruct (main_completed e2 w1 w2 d2 Hr2 Ht2 Hrun2)
    as (v2 & m2 & rows2 & items2 & _ & _ & Hrows2 & Hitems2 & Hpos2 & Hsum2 & Hfile2).
  eexists rows1, rows2, _, _, items2.
  split; [rewrite Hpos2, Hpos1, <- app_assoc; reflexivity|].
  assert (Hts : forall md ts vs rs,
             mapM (position_row_of md ts) vs = Ok rs ->
             Forall (fun r => row_timestamp r = ts) rs).
  { intros md ts vs rs H. apply mapM_Forall2 in H.
    induction H; constructor; auto. eapply position_row_of_timestamp; eauto. }
  split; [exact (Hts _ _ _ _ Hrows1)|]. split; [exact (Hts _ _ _ _ Hrows2)|].
  split; [rewrite Hsum2, Hsum1, <- app_assoc; reflexivity|].
  apply mapM_length in Hrows1, Hrows2, Hitems2. cbn.
  repeat split; congruence.
Qed.

Lemma main_twice_witness :
  exists rows1 rows2 s1 s2 items2,
    rows_of (vessel_positions (db second_result)) =
      (rows_of (vessel_positions (db fresh_world)) ++ rows1 ++ rows2)%list /\
    Forall (fun r => row_timestamp r = isoformat (clock_start sample_env)) rows1 /\
    Forall (fun r => row_timestamp r = isoformat (clock_start later_env)) rows2 /\
    rows_of (collection_summary (db second_result)) =
      (rows_of (collection_summary (db fresh_world)) ++ [s1; s2])%list /\
    summary_vessel_count s1 = List.length rows1 /\
    summary_vessel_count s2 = List.length rows2 /\
    latest_json second_result =
      Document (snapshot_output items2 (clock_start later_env)) /\
    List.length items2 = List.length rows2.
Proof.
  assert (H1 : main sample_env fresh_world = (Ok tt, sample_result))
    by (vm_compute; reflexivity).
  assert (H2 : main later_env sample_result = (Ok tt, second_result))
    by (vm_compute; reflexivity).
  exact (main_twice sample_env later_env fresh_world sample_result second_result
           (JDict scenario) (JDict scenario)
           eq_refl eq_refl H1 eq_refl eq_refl H2).
Defined.

(** ** More on the metadata lookup *)

Lemma metadata_loop_raises (vessels mmsi_list : list json) (bad mmsi : json)
  (x : exn) (acc : metadata_dict) :
  In bad vessels -> dict_get bad "mmsi" JNull = Ok mmsi ->
  list_contains mmsi_list mmsi = true -> metadata_entry bad = Raise x ->
  exists x', metadata_loop vessels mmsi_list acc = Raise x'.
Proof.
  intros Hin Hm Hc He. revert acc.
  induction vessels as [|vessel rest IH]; intros acc; [destruct Hin|].
  simpl. destruct Hin as [->|Hin].
  - rewrite Hm. cbn [bind]. rewrite Hc, He. eexists; reflexivity.
  - destruct (dict_get vessel "mmsi" JNull) as [k|]; [|eexists; reflexivity].
    cbn [bind]. destruct (list_contains mmsi_list k); [|apply IH; exact Hin].
    destruct (metadata_entry vessel) as [entry|]; [|eexists; reflexivity].
    cbn [bind]. destruct (metadata_set acc k entry) as [acc'|]; [|eexists; reflexivity].
    cbn [bind]. apply IH; exact Hin.
Qed.

(** X12.  One unusable record voids the whole lookup.  If the reply holds
    a record of a vessel of the region whose entry cannot be built (a name or
    destination that is present but not a string), the exception is caught
    and [fetch_vessel_metadata] returns the empty lookup after printing its
    warning, dropping the entries of the sound records too. *)
Theorem fetch_vessel_metadata_unusable_record (vessels mmsi_list : list json)
  (bad mmsi : json) (x : exn) (w : world) :
  In bad vessels -> dict_get bad "mmsi" JNull = Ok mmsi ->
  list_contains mmsi_list mmsi = true -> metadata_entry bad = Raise x ->
  fetch_vessel_metadata mmsi_list (Body (JList vessels)) w =
  (Ok [], {| db := db w; latest_json := latest_json w;
             stdout := (stdout w ++ [PrintMetadataWarning])%list |}).
Proof.
  intros Hin Hm Hc He.
  destruct (metadata_loop_raises vessels mmsi_list bad mmsi x [] Hin Hm Hc He)
    as [x' Hx'].
  unfold fetch_vessel_metadata. simpl. rewrite Hx'. reflexivity.
Qed.

Lemma fetch_vessel_metadata_unusable_record_witness :
  fetch_vessel_metadata [JInt 230000001; JInt 230000003]
    (Body (JList unnamed_vessels)) fresh_world =
  (Ok [], {| db := db fresh_world; latest_json := latest_json fresh_world;
             stdout := (stdout fresh_world ++ [PrintMetadataWarning])%list |}).
Proof.
  apply (fetch_vessel_metadata_unusable_record unnamed_vessels
           [JInt 230000001; JInt 230000003]
           (JDict [("mmsi", JInt 230000003); ("name", JNull)])
           (JInt 230000003) AttributeError fresh_world).
  - right. left. reflexivity.
  - reflexivity.
  - reflexivity.
  - reflexivity.
Defined.

(** Storing under [k'] and looking up [k]: the stored value if the two
    are equal, what was there before if not. *)
Lemma metadata_find_update (k k' v : json) (m : metadata_dict) :
  hashable k' = true -> Forall (fun x => hashable x = true) (map fst m) ->
  metadata_find k (metadata_update k' v m) =
  if py_same k' k then Some v else metadata_find k m.
Proof.
  intros Hk' Hm. induction m as [|[k0 v0] m IH]; simpl.
  - reflexivity.
  - inversion Hm as [|? ? Hk0 Hm']; subst. simpl in Hk0.
    destruct (py_same k0 k') eqn:E0; simpl.
    + destruct (py_same k0 k) eqn:E1.
      * assert (Hk : py_same k' k0 = true) by (rewrite py_same_sym; assumption).
        now rewrite (py_same_trans k' k0 k Hk' Hk E1).
      * destruct (py_same k' k) eqn:E2; [|reflexivity].
        now rewrite (py_same_trans k0 k' k Hk0 E0 E2) in E1.
    + rewrite (IH Hm'). destruct (py_same k0 k) eqn:E1; [|reflexivity].
      destruct (py_same k' k) eqn:E2; [|reflexivity].
      assert (Hk : py_same k k' = true) by (rewrite <- py_same_sym; assumption).
      now rewrite (py_same_trans k0 k k' Hk0 E1 Hk) in E0.
Qed.

Lemma metadata_loop_last_record (vessels mmsi_list : list json)
  (acc m : metadata_dict) (k : json) :
  metadata_loop vessels mmsi_list acc = Ok m ->
  Forall (fun x => hashable x = true) (map fst acc) ->
  metadata_find k m =
  match last_record k mmsi_list vessels with
  | Some r => entry_of (Some r)
  | None => metadata_find k acc
  end.
Proof.
  revert acc. induction vessels as [|vessel rest IH]; intros acc H Hacc; simpl in H.
  - now injection H as <-.
  - inv_bind H. simpl. rewrite E.
    destruct (list_contains mmsi_list a) eqn:Hc; cbn [andb].
    + inv_bind H. unfold metadata_set in E1.
      destruct (hashable a) eqn:Hh; [|discriminate E1]. injection E1 as <-.
      rewrite (IH _ H).
      * destruct (last_record k mmsi_list rest); [reflexivity|].
        rewrite metadata_find_update by assumption.
        destruct (py_same a k); [|reflexivity]. simpl. now rewrite E0.
      * rewrite metadata_update_keys.
        destruct (list_contains (map fst acc) a); [assumption|].
        apply Forall_app. split; [assumption|]. constructor; [assumption|constructor].
    + rewrite (IH _ H Hacc). destruct (last_record k mmsi_list rest); reflexivity.
Qed.

(** X13.  When no record makes the loop raise, the lookup answers, for
    every identifier, with the entry built from the last record of the reply
    whose ['mmsi'] is the same as it, as a dictionary lookup tests it (the
    very object, or an equal value), and is found among the filtered
    identifiers; it answers with nothing when there is no such record.  A
    later record replaces an earlier one of the same vessel. *)
Theorem fetch_vessel_metadata_last_record (vessels mmsi_list : list json)
  (m : metadata_dict) (w : world) :
  metadata_loop vessels mmsi_list [] = Ok m ->
  fetch_vessel_metadata mmsi_list (Body (JList vessels)) w = (Ok m, w) /\
  forall k, metadata_find k m = entry_of (last_record k mmsi_list vessels).
Proof.
  intros H. split.
  - unfold fetch_vessel_metadata. simpl. rewrite H. reflexivity.
  - intros k. rewrite (metadata_loop_last_record _ _ _ _ k H) by constructor.
    destruct (last_record k mmsi_list vessels); reflexivity.
Qed.

Lemma fetch_vessel_metadata_last_record_witness :
  fetch_vessel_metadata [JInt 230000001; JInt 230000003]
    (Body (JList renamed_vessels)) fresh_world =
    (Ok [(JInt 230000001,
          JDict [("name", JStr "AURORA II"); ("ship_type", JNull);
                 ("destination", JStr "KOTKA"); ("eta", JNull);
                 ("draught", JNull)])], fresh_world) /\
  forall k,
    metadata_find k
      [(JInt 230000001,
        JDict [("name", JStr "AURORA II"); ("ship_type", JNull);
               ("destination", JStr "KOTKA"); ("eta", JNull);
               ("draught", JNull)])] =
    entry_of (last_record k [JInt 230000001; JInt 230000003] renamed_vessels).
Proof.
  apply (fetch_vessel_metadata_last_record renamed_vessels
           [JInt 230000001; JInt 230000003]).
  reflexivity.
Defined.

Lemma lstrip_head (s : string) (c : ascii) (t : string) :
  lstrip s = String c t -> is_space c = false.
Proof.
  induction s as [|a s IH]; simpl; [discriminate|].
  destruct (is_space a) eqn:Ha; [exact IH|].
  intros H. injection H as <- _. exact Ha.
Qed.

Lemma rstrip_last (s : string) (c : ascii) (t : string) :
  rstrip s = String c t -> is_space (last_char c t) = false.
Proof.
  revert c t. induction s as [|a s IH]; intros c t; simpl; [discriminate|].
  destruct (rstrip s) as [|c' t'] eqn:Hr.
  - rewrite andb_true_r. destruct (is_space a) eqn:Ha; [discriminate|].
    intros H. injection H as <- <-. exact Ha.
  - rewrite andb_false_r. intros H. injection H as <- <-.
    simpl. now apply IH.
Qed.

Lemma strip_trimmed (s : string) : trimmed (rstrip (lstrip s)) = true.
Proof.
  destruct (lstrip s) as [|c t] eqn:Hl; [reflexivity|].
  pose proof (lstrip_head _ _ _ Hl) as Hc.
  destruct (rstrip (String c t)) as [|c' t'] eqn:Hr; [reflexivity|].
  pose proof (rstrip_last _ _ _ Hr) as Hlast.
  simpl in Hr. rewrite Hc in Hr. simpl in Hr. injection Hr as <- <-.
  unfold trimmed. now rewrite Hc, Hlast.
Qed.

Lemma metadata_entry_trimmed (vessel v : json) :
  metadata_entry vessel = Ok v ->
  exists name destination,
    getitem v "name" = Ok (JStr name) /\
    getitem v "destination" = Ok (JStr destination) /\
    trimmed name = true /\ trimmed destination = true.
Proof.
  unfold metadata_entry. intros H. inv_bind H.
  destruct a; try discriminate E0. destruct a2; try discriminate E3.
  simpl in E0, E3. injection E0 as <-. injection E3 as <-.
  injection H as <-. eexists _, _.
  split; [reflexivity|]. split; [reflexivity|].
  split; apply strip_trimmed.
Qed.

Lemma metadata_loop_trimmed (vessels mmsi_list : list json) (acc m : metadata_dict)
  (P : json -> Prop) :
  (forall vessel v, metadata_entry vessel = Ok v -> P v) ->
  metadata_loop vessels mmsi_list acc = Ok m ->
  Forall (fun kv => P (snd kv)) acc -> Forall (fun kv => P (snd kv)) m.
Proof.
  intros HP. revert acc.
  induction vessels as [|vessel rest IH]; intros acc H Hacc; simpl in H.
  - now injection H as <-.
  - inv_bind H. destruct (list_contains mmsi_list a); [|eauto].
    inv_bind H. apply IH in H; [exact H|].
    unfold metadata_set in E1. destruct (hashable a); [|discriminate E1].
    injection E1 as <-. apply metadata_update_values; eauto.
Qed.

(** X14.  Whatever the reply, the names and destinations kept in the
    lookup are strings without white space at either end. *)
Theorem fetch_vessel_metadata_trimmed (mmsi_list : list json) (reply : http_reply)
  (k v : json) :
  In (k, v) (lookup_of mmsi_list reply) ->
  exists name destination,
    getitem v "name" = Ok (JStr name) /\
    getitem v "destination" = Ok (JStr destination) /\
    trimmed name = true /\ trimmed destination = true.
Proof.
  unfold lookup_of, fetch_vessel_metadata.
  destruct reply as [| | |vessels]; try (intros []).
  destruct (items <- py_iter vessels;; metadata_loop items mmsi_list []) as [m|x] eqn:E;
    [|intros []].
  cbn. intros Hin. inv_bind E.
  pose proof (metadata_loop_trimmed _ _ _ _ _ metadata_entry_trimmed E
                (Forall_nil _)) as Hall.
  rewrite Forall_forall in Hall. exact (Hall (k, v) Hin).
Qed.

Lemma fetch_vessel_metadata_trimmed_witness :
  exists name destination,
    getitem (JDict [("name", JStr "AURORA"); ("ship_type", JInt 70);
                    ("destination", JStr "TURKU"); ("eta", JInt 417792);
                    ("draught", JInt 61)]) "name" = Ok (JStr name) /\
    getitem (JDict [("name", JStr "AURORA"); ("ship_type", JInt 70);
                    ("destination", JStr "TURKU"); ("eta", JInt 417792);
                    ("draught", JInt 61)]) "destination" = Ok (JStr destination) /\
    trimmed name = true /\ trimmed destination = true.
Proof.
  apply (fetch_vessel_metadata_trimmed [JInt 230000001; JInt 230000003]
           (Body sample_vessels) (JInt 230000001)).
  left. reflexivity.
Defined.

Lemma metadata_loop_region (vessels mmsi_list : list json) (acc : metadata_dict) :
  forallb is_object vessels = true ->
  metadata_loop vessels mmsi_list acc =
  metadata_loop (filter (in_region mmsi_list) vessels) mmsi_list acc.
Proof.
  revert acc. induction vessels as [|vessel rest IH]; intros acc H; [reflexivity|].
  simpl in H. apply andb_true_iff in H as [Hv Hrest].
  destruct vessel; try discriminate Hv.
  simpl. unfold in_region. simpl.
  destruct (list_contains mmsi_list _) eqn:Hc.
  - simpl. rewrite Hc.
    destruct (metadata_entry (JDict d)) as [entry|]; [|reflexivity]. cbn [bind].
    destruct (metadata_set acc _ entry) as [acc'|]; [|reflexivity]. cbn [bind].
    now apply IH.
  - now apply IH.
Qed.

(** X15.  Records of vessels outside the region have no effect on the
    lookup, not even malformed ones: when every record of the reply is an
    object, the lookup is the one built from the records whose ['mmsi'] is
    among the filtered identifiers. *)
Theorem fetch_vessel_metadata_region_only (vessels mmsi_list : list json) :
  forallb is_object vessels = true ->
  lookup_of mmsi_list (Body (JList vessels)) =
  lookup_of mmsi_list (Body (JList (filter (in_region mmsi_list) vessels))).
Proof.
  intros H. unfold lookup_of, fetch_vessel_metadata. simpl.
  now rewrite (metadata_loop_region vessels mmsi_list [] H).
Qed.

Lemma fetch_vessel_metadata_region_only_witness :
  lookup_of [JInt 230000001; JInt 230000003] (Body (JList distant_unnamed_vessels)) =
  lookup_of [JInt 230000001; JInt 230000003]
    (Body (JList (filter (in_region [JInt 230000001; JInt 230000003])
                         distant_unnamed_vessels))).
Proof.
  apply (fetch_vessel_metadata_region_only distant_unnamed_vessels
           [JInt 230000001; JInt 230000003]).
  reflexivity.
Defined.

(** ** Numbers that are equal *)

Lemma float_eqb_leb_compat (x y c : pyfloat) :
  float_eqb x y = true ->
  float_leb c x = float_leb c y /\ float_leb x c = float_leb y c.
Proof.
  unfold float_eqb, float_leb.
  destruct x as [|[]|m1 e1], y as [|[]|m2 e2]; simpl; try discriminate;
    try (intros _; split; reflexivity).
  destruct c as [|[]|m3 e3]; simpl; try (intros _; split; reflexivity).
  intros H. split.
  - destruct (dyadic_compare_common m3 e3 m1 e1 m2 e2) as (a & b & c & -> & Hxy & ->).
    rewrite Hxy in H. destruct (Z.compare_spec b c); try discriminate H.
    now subst.
  - destruct (dyadic_compare_common m1 e1 m2 e2 m3 e3) as (a & b & c & Hxy & -> & ->).
    rewrite Hxy in H. destruct (Z.compare_spec a b); try discriminate H.
    now subst.
Qed.

Lemma py_eq_numbers (a a' : json) (x : pyfloat) :
  py_eq a a' = true -> as_number a = Some x ->
  exists y, as_number a' = Some y /\ float_eqb x y = true.
Proof.
  intros H Hx.
  destruct a; try discriminate Hx; destruct a'; cbn [py_eq as_number] in H;
    try discriminate H; simpl in Hx; injection Hx as <-; simpl; eauto.
Qed.

(** X17.  The box test sees numbers, not their types: coordinates that
    are equal as Python numbers (an [int], a [float] or a [bool] of the same
    value) get the same answer. *)
Theorem in_bbox_equal_numbers (vlon vlon' vlat vlat' : json) (lon lat : pyfloat) :
  as_number vlon = Some lon -> as_number vlat = Some lat ->
  py_eq vlon vlon' = true -> py_eq vlat vlat' = true ->
  in_bbox vlon vlat = in_bbox vlon' vlat'.
Proof.
  intros Hx Hy Hlon Hlat.
  destruct (py_eq_numbers _ _ _ Hlon Hx) as (lon' & Hx' & Elon).
  destruct (py_eq_numbers _ _ _ Hlat Hy) as (lat' & Hy' & Elat).
  rewrite (in_bbox_numbers _ _ _ _ Hx Hy), (in_bbox_numbers _ _ _ _ Hx' Hy').
  unfold withinb.
  destruct (float_eqb_leb_compat lon lon' (min_lon BBOX) Elon) as [-> _].
  destruct (float_eqb_leb_compat lon lon' (max_lon BBOX) Elon) as [_ ->].
  destruct (float_eqb_leb_compat lat lat' (min_lat BBOX) Elat) as [-> _].
  destruct (float_eqb_leb_compat lat lat' (max_lat BBOX) Elat) as [_ ->].
  reflexivity.
Qed.

Lemma in_bbox_equal_numbers_witness :
  in_bbox (JInt 20) (JFloat (FFin 117 (-1))) =
  in_bbox (JFloat (FFin 5 2)) (JFloat (FFin 234 (-2))).
Proof.
  apply (in_bbox_equal_numbers (JInt 20) (JFloat (FFin 5 2))
           (JFloat (FFin 117 (-1))) (JFloat (FFin 234 (-2)))
           (FFin 20 0) (FFin 117 (-1))); reflexivity.
Defined.
